(** * A URL shortener on AWS Lambda and DynamoDB: [app.py]

    The development embeds [src/app.py] in Gallina and proves the
    properties its specification states.  Python text is a sequence of
    code points; the libraries the handler calls ([json], [urllib.parse],
    [random], the DynamoDB table of [boto3]) are modelled at the level the
    handler observes them; exceptions are values of an error monad over the
    state of the world (table, random source, trace of store calls). *)

From Stdlib Require Import Ascii String ZArith NArith List Bool Lia.
From stdpp Require Import base option list gmap numbers.

Set Warnings "-register-all".
Local Open Scope list_scope.

(** ** Python text *)

(** A Python [str] is the list of its code points. *)
Abbreviation str := (list N).

Definition str_eqb (a b : str) : bool := bool_decide (a = b).

(** Decoding of the UTF-8 bytes of a Rocq literal into code points. *)
Fixpoint utf8_decode (bs : list N) : str :=
  match bs with
  | [] => []
  | b :: r =>
      if (b <? 128)%N then b :: utf8_decode r
      else if (b <? 224)%N then
        match r with
        | b1 :: r1 => ((b mod 32) * 64 + b1 mod 64)%N :: utf8_decode r1
        | _ => []
        end
      else if (b <? 240)%N then
        match r with
        | b1 :: b2 :: r2 =>
            ((b mod 16) * 4096 + (b1 mod 64) * 64 + b2 mod 64)%N :: utf8_decode r2
        | _ => []
        end
      else
        match r with
        | b1 :: b2 :: b3 :: r3 =>
            ((b mod 8) * 262144 + (b1 mod 64) * 4096 + (b2 mod 64) * 64 + b3 mod 64)%N
              :: utf8_decode r3
        | _ => []
        end
  end.

Definition py (s : string) : str :=
  utf8_decode (map N_of_ascii (list_ascii_of_string s)).
Arguments py s%_string.

Definition ch (a : ascii) : N := N_of_ascii a.
Arguments ch a%_char.

Definition aspas : N := 34.        (* the quotation mark *)
Definition barra_inv : N := 92.    (* the backslash *)

(** A literal in which the apostrophe stands for the quotation mark. *)
Definition pyq (s : string) : str :=
  map (fun c => if (c =? 39)%N then aspas else c) (py s).
Arguments pyq s%_string.

Definition contem (c : N) (s : str) : bool := existsb (N.eqb c) s.

Definition is_digit (c : N) : bool := (48 <=? c)%N && (c <=? 57)%N.
Definition is_lower (c : N) : bool := (97 <=? c)%N && (c <=? 122)%N.
Definition is_upper (c : N) : bool := (65 <=? c)%N && (c <=? 90)%N.
Definition is_ascii (c : N) : bool := (c <? 128)%N.
Definition str_isascii (s : str) : bool := forallb is_ascii s.

(** [str.lower] on text known to be ASCII. *)
Definition ascii_lower (c : N) : N := if is_upper c then (c + 32)%N else c.

(** [s.find(c)]: index of the first occurrence. *)
Fixpoint find_char (c : N) (s : str) : option nat :=
  match s with
  | [] => None
  | x :: r => if (x =? c)%N then Some 0 else S <$> find_char c r
  end.

(** [s.startswith(p)] and [s.endswith(p)]. *)
Fixpoint startswith (s p : str) : bool :=
  match p, s with
  | [], _ => true
  | _ :: _, [] => false
  | a :: p', b :: s' => (a =? b)%N && startswith s' p'
  end.

Definition endswith (s p : str) : bool := startswith (rev s) (rev p).

(** [s.lstrip(chars)]. *)
Fixpoint lstrip (chars : N -> bool) (s : str) : str :=
  match s with
  | c :: r => if chars c then lstrip chars r else s
  | [] => []
  end.

(** Decimal rendering, as [%d] and [str(int)] do for a natural number. *)
Fixpoint dec_digits (fuel : nat) (n : N) (acc : str) : str :=
  match fuel with
  | O => acc
  | S f =>
      let acc' := (48 + n mod 10)%N :: acc in
      if (n <? 10)%N then acc' else dec_digits f (n / 10)%N acc'
  end.

Definition str_of_nat (n : nat) : str :=
  dec_digits (S n) (N.of_nat n) [].

(** Four lower-case hexadecimal digits, as [{0:04x}] formats them. *)
Definition hex_digit (n : N) : N :=
  if (n <? 10)%N then (48 + n)%N else (87 + n)%N.

Definition hex4 (n : N) : str :=
  [hex_digit (n / 4096 mod 16); hex_digit (n / 256 mod 16);
   hex_digit (n / 16 mod 16); hex_digit (n mod 16)]%N.

Definition hex_val (c : N) : option N :=
  if is_digit c then Some (c - 48)%N
  else if (97 <=? c)%N && (c <=? 102)%N then Some (c - 87)%N
  else if (65 <=? c)%N && (c <=? 70)%N then Some (c - 55)%N
  else None.

(** ** Exceptions *)

Inductive Excecao :=
| JSONDecodeError (msg doc : str) (pos : nat)
| ValueError (texto : str)
| AttributeError (texto : str)
| KeyError (chave : str)
| RecursionError (texto : str)
| ClientError (Code : str) (texto : str)
| BotoCoreError (texto : str).

(** [JSONDecodeError.__init__]: line and column of [pos] in [doc]. *)
Definition lineno (doc : str) (pos : nat) : nat :=
  S (length (filter (fun c => c = 10%N) (take pos doc))).

Definition colno (doc : str) (pos : nat) : nat :=
  match find_char 10 (rev (take pos doc)) with
  | Some k => S k
  | None => S (length (take pos doc))
  end.

(** [str(e)].  A [KeyError] prints the [repr] of its key, which for the
    plain ASCII key of the handler is the key between apostrophes. *)
Definition str_exc (e : Excecao) : str :=
  match e with
  | JSONDecodeError msg doc pos =>
      msg ++ py ": line " ++ str_of_nat (lineno doc pos)
          ++ py " column " ++ str_of_nat (colno doc pos)
          ++ py " (char " ++ str_of_nat pos ++ py ")"
  | KeyError k => py "'" ++ k ++ py "'"
  | ValueError t | AttributeError t | RecursionError t
  | ClientError _ t | BotoCoreError t => t
  end.

Inductive Res (A : Type) :=
| Ok (a : A)
| Raise (e : Excecao).
Arguments Ok {A} a.
Arguments Raise {A} e.

(** ** Python values *)

(** A [float] is kept as the decimal its literal denotes, [m * 10^e]. *)
Inductive pyfloat :=
| FDec (m e : Z)
| FNaN
| FInf (neg : bool).

(** The values [json.loads] builds. *)
Inductive valor :=
| VNone
| VBool (b : bool)
| VInt (z : Z)
| VFloat (f : pyfloat)
| VStr (s : str)
| VList (l : list valor)
| VDict (d : list (str * valor)).

(** [d[k] = v] on a dict kept in insertion order. *)
Fixpoint dict_set (d : list (str * valor)) (k : str) (v : valor) : list (str * valor) :=
  match d with
  | [] => [(k, v)]
  | (k', v') :: r => if str_eqb k' k then (k, v) :: r else (k', v') :: dict_set r k v
  end.

(** [d.get(k)]: [None] of Python is [VNone]. *)
Fixpoint dict_get (d : list (str * valor)) (k : str) : valor :=
  match d with
  | [] => VNone
  | (k', v) :: r => if str_eqb k' k then v else dict_get r k
  end.

(** The nearest double of [m * 10^e] is zero: the decimal is at most half
    the least subnormal, [2^-1075] (a tie goes to the even neighbour, 0). *)
Definition float_is_zero (f : pyfloat) : bool :=
  match f with
  | FDec m e =>
      (m =? 0)%Z || ((e <? 0)%Z && (Z.abs m * 2 ^ 1075 <=? 10 ^ (- e))%Z)
  | FNaN | FInf _ => false
  end.

(** Truth value of an object, as [not x] tests it. *)
Definition truthy (v : valor) : bool :=
  match v with
  | VNone => false
  | VBool b => b
  | VInt z => negb (z =? 0)%Z
  | VFloat f => negb (float_is_zero f)
  | VStr s => negb (str_eqb s [])
  | VList l => match l with [] => false | _ => true end
  | VDict d => match d with [] => false | _ => true end
  end.

(** ** [json.loads]

    The decoder follows the scanner CPython runs ([json.decoder] with the
    [_json] accelerator): positions are indices into the document, and a
    scan stops with a value and the rest of the text, with [StopIteration],
    or with the message and position of a [JSONDecodeError]. *)

Inductive Scan (A : Type) :=
| SOk (a : A) (rest : str) (pos : nat)
| SStop (idx : nat)
| SErr (msg : str) (pos : nat)
| SExc (e : Excecao).
Arguments SOk {A} a rest pos.
Arguments SStop {A} idx.
Arguments SErr {A} msg pos.
Arguments SExc {A} e.

Definition is_ws (c : N) : bool :=
  (c =? 32)%N || (c =? 9)%N || (c =? 10)%N || (c =? 13)%N.

Fixpoint skip_ws (s : str) (pos : nat) : str * nat :=
  match s with
  | c :: r => if is_ws c then skip_ws r (S pos) else (s, pos)
  | [] => ([], pos)
  end.

(** The [BACKSLASH] table. *)
Definition escape_simples (c : N) : option N :=
  if (c =? aspas)%N then Some aspas
  else if (c =? barra_inv)%N then Some barra_inv
  else if (c =? ch "/")%N then Some (ch "/")
  else if (c =? ch "b")%N then Some 8%N
  else if (c =? ch "f")%N then Some 12%N
  else if (c =? ch "n")%N then Some 10%N
  else if (c =? ch "r")%N then Some 13%N
  else if (c =? ch "t")%N then Some 9%N
  else None.

Definition hex4_val (h1 h2 h3 h4 : N) : option N :=
  a ← hex_val h1; b ← hex_val h2; c ← hex_val h3; d ← hex_val h4;
  Some (((a * 16 + b) * 16 + c) * 16 + d)%N.

Definition high_surrogate (u : N) : bool := (55296 <=? u)%N && (u <=? 56319)%N.
Definition low_surrogate (u : N) : bool := (56320 <=? u)%N && (u <=? 57343)%N.
Definition join_surrogates (u u2 : N) : N :=
  (65536 + ((u - 55296) * 1024 + (u2 - 56320)))%N.

Definition msg_unterminated : str := py "Unterminated string starting at".
Definition msg_uXXXX : str := py "Invalid \uXXXX escape".

(** [scanstring(s, end)]: [s] is the text after the opening quote, [pos]
    its index, [begin] the index of the quote. *)
Fixpoint scanstring (begin : nat) (s : str) (pos : nat) (acc : str) {struct s} : Scan str :=
  match s with
  | [] => SErr msg_unterminated begin
  | c :: r =>
      if (c =? aspas)%N then SOk (rev acc) r (S pos)
      else if (c =? barra_inv)%N then
        match r with
        | [] => SErr msg_unterminated begin
        | e :: r1 =>
            if negb (e =? ch "u")%N then
              match escape_simples e with
              | Some c' => scanstring begin r1 (pos + 2) (c' :: acc)
              | None => SErr (py "Invalid \escape") pos
              end
            else
              match r1 with
              | h1 :: h2 :: h3 :: h4 :: ((_ :: _) as r4) =>
                  match hex4_val h1 h2 h3 h4 with
                  | None => SErr msg_uXXXX (pos + 1)
                  | Some u =>
                      if high_surrogate u then
                        match r4 with
                        | a :: b :: g1 :: g2 :: g3 :: g4 :: ((_ :: _) as r10) =>
                            if (a =? barra_inv)%N && (b =? ch "u")%N then
                              match hex4_val g1 g2 g3 g4 with
                              | None => SErr msg_uXXXX (pos + 7)
                              | Some u2 =>
                                  if low_surrogate u2
                                  then scanstring begin r10 (pos + 12)
                                         (join_surrogates u u2 :: acc)
                                  else scanstring begin r4 (pos + 6) (u :: acc)
                              end
                            else scanstring begin r4 (pos + 6) (u :: acc)
                        | _ => scanstring begin r4 (pos + 6) (u :: acc)
                        end
                      else scanstring begin r4 (pos + 6) (u :: acc)
                  end
              | _ => SErr msg_uXXXX (pos + 1)
              end
        end
      else if (c <=? 31)%N then SErr (py "Invalid control character at") pos
      else scanstring begin r (S pos) (c :: acc)
  end.

(** Longest prefix of decimal digits. *)
Fixpoint span_digits (s : str) : str * str :=
  match s with
  | c :: r => if is_digit c then let '(d, t) := span_digits r in (c :: d, t) else ([], s)
  | [] => ([], [])
  end.

Definition int_of_digits (d : str) : Z :=
  fold_left (fun acc c => (acc * 10 + Z.of_N (c - 48))%Z) d 0%Z.

Definition int_max_str_digits : nat := 4300.

Definition msg_int_limit (n : nat) : str :=
  py "Exceeds the limit (4300 digits) for integer string conversion: value has "
     ++ str_of_nat n ++ py " digits; use sys.set_int_max_str_digits() to increase the limit".

(** [_match_number]: an optional minus, then 0 or a digit string without
    leading zero, then an optional fraction (a dot and digits) and an
    optional exponent (e or E, an optional sign, digits). *)
Definition match_number (s : str) (pos : nat) : Scan valor :=
  let '(neg, s1) :=
    match s with
    | c :: r => if (c =? ch "-")%N then (true, r) else (false, s)
    | [] => (false, s)
    end in
  let sgn (z : Z) : Z := if neg then (- z)%Z else z in
  let p1 := if neg then S pos else pos in
  match s1 with
  | [] => SStop pos
  | c :: r =>
      if negb (is_digit c) then SStop pos
      else
        let '(idig, s2) :=
          if (c =? ch "0")%N then ([c], r)
          else let '(d, t) := span_digits r in (c :: d, t) in
        let p2 := p1 + length idig in
        (* fraction: a dot followed by a digit *)
        let '(fdig, s3) :=
          match s2 with
          | dot :: ((d0 :: _) as t) =>
              if (dot =? ch ".")%N && is_digit d0 then span_digits t else ([], s2)
          | _ => ([], s2)
          end in
        let p3 := match fdig with [] => p2 | _ => p2 + 1 + length fdig end in
        (* exponent: e or E, an optional sign, digits; else backtrack *)
        let '(expo, s4, p4) :=
          match s3 with
          | e :: ((_ :: _) as t) =>
              if (e =? ch "e")%N || (e =? ch "E")%N then
                let '(eneg, signed, t1) :=
                  match t with
                  | sg :: ((_ :: _) as t') =>
                      if (sg =? ch "-")%N then (true, true, t')
                      else if (sg =? ch "+")%N then (false, true, t')
                      else (false, false, t)
                  | _ => (false, false, t)
                  end in
                let '(edig, t2) := span_digits t1 in
                match edig with
                | [] => (None, s3, p3)
                | _ =>
                    let x := int_of_digits edig in
                    (Some (if eneg then (- x)%Z else x), t2,
                     p3 + 1 + (if signed then 1 else 0) + length edig)
                end
              else (None, s3, p3)
          | _ => (None, s3, p3)
          end in
        match fdig, expo with
        | [], None =>
            if int_max_str_digits <? length idig
            then SExc (ValueError (msg_int_limit (length idig)))
            else SOk (VInt (sgn (int_of_digits idig))) s4 p4
        | _, _ =>
            let x := match expo with Some x => x | None => 0%Z end in
            SOk (VFloat (FDec (sgn (int_of_digits (idig ++ fdig)))
                              (x - Z.of_nat (length fdig)))) s4 p4
        end
  end.

Definition msg_prop_name : str :=
  py "Expecting property name enclosed in double quotes".
Definition msg_recursion : str :=
  py "maximum recursion depth exceeded".
Definition msg_recursion_object : str :=
  msg_recursion ++ py " while decoding a JSON object from a unicode string".
Definition msg_recursion_array : str :=
  msg_recursion ++ py " while decoding a JSON array from a unicode string".

(** [scan_once], [JSONArray] and [JSONObject].  The scanner enters a
    recursive call ([Py_EnterRecursiveCall]) at every [{] and [[], before
    it reads further: [niveis] is the number of such calls the
    interpreter still allows, and with none left the scanner raises
    [RecursionError].  [fuel] bounds the number of calls of the three
    functions; [json_loads] supplies more than the document can use. *)
Fixpoint scan_once (fuel niveis : nat) (s : str) (pos : nat) {struct fuel} : Scan valor :=
  match fuel with
  | O => SExc (RecursionError msg_recursion)
  | S f =>
      match s with
      | [] => SStop pos
      | c :: r =>
          if (c =? aspas)%N then
            match scanstring pos r (S pos) [] with
            | SOk t r' p' => SOk (VStr t) r' p'
            | SStop i => SStop i
            | SErr m p => SErr m p
            | SExc e => SExc e
            end
          else if (c =? ch "{")%N then
            match niveis with
            | O => SExc (RecursionError msg_recursion_object)
            | S n =>
                let '(r1, p1) := skip_ws r (S pos) in
                match r1 with
                | c1 :: r2 =>
                    if (c1 =? ch "}")%N then SOk (VDict []) r2 (S p1)
                    else parse_object f n r1 p1 []
                | [] => parse_object f n r1 p1 []
                end
            end
          else if (c =? ch "[")%N then
            match niveis with
            | O => SExc (RecursionError msg_recursion_array)
            | S n =>
                let '(r1, p1) := skip_ws r (S pos) in
                match r1 with
                | c1 :: r2 =>
                    if (c1 =? ch "]")%N then SOk (VList []) r2 (S p1)
                    else parse_array f n r1 p1 []
                | [] => parse_array f n r1 p1 []
                end
            end
          else if startswith s (py "null") then SOk VNone (drop 4 s) (pos + 4)
          else if startswith s (py "true") then SOk (VBool true) (drop 4 s) (pos + 4)
          else if startswith s (py "false") then SOk (VBool false) (drop 5 s) (pos + 5)
          else if startswith s (py "NaN") then SOk (VFloat FNaN) (drop 3 s) (pos + 3)
          else if startswith s (py "Infinity")
               then SOk (VFloat (FInf false)) (drop 8 s) (pos + 8)
          else if startswith s (py "-Infinity")
               then SOk (VFloat (FInf true)) (drop 9 s) (pos + 9)
          else match_number s pos
      end
  end
with parse_array (fuel niveis : nat) (s : str) (pos : nat) (acc : list valor)
       {struct fuel} : Scan valor :=
  match fuel with
  | O => SExc (RecursionError msg_recursion)
  | S f =>
      match scan_once f niveis s pos with
      | SOk v r p =>
          let '(r1, p1) := skip_ws r p in
          match r1 with
          | c :: r2 =>
              if (c =? ch "]")%N then SOk (VList (rev (v :: acc))) r2 (S p1)
              else if (c =? ch ",")%N then
                let '(r3, p3) := skip_ws r2 (S p1) in
                parse_array f niveis r3 p3 (v :: acc)
              else SErr (py "Expecting ',' delimiter") p1
          | [] => SErr (py "Expecting ',' delimiter") p1
          end
      | SStop i => SStop i
      | SErr m p => SErr m p
      | SExc e => SExc e
      end
  end
with parse_object (fuel niveis : nat) (s : str) (pos : nat) (d : list (str * valor))
       {struct fuel} : Scan valor :=
  match fuel with
  | O => SExc (RecursionError msg_recursion)
  | S f =>
      match s with
      | c :: r =>
          if negb (c =? aspas)%N then SErr msg_prop_name pos
          else
            match scanstring pos r (S pos) [] with
            | SOk key r0 p0 =>
                let '(r1, p1) := skip_ws r0 p0 in
                match r1 with
                | c1 :: r2 =>
                    if negb (c1 =? ch ":")%N then SErr (py "Expecting ':' delimiter") p1
                    else
                      let '(r3, p3) := skip_ws r2 (S p1) in
                      match scan_once f niveis r3 p3 with
                      | SOk v r4 p4 =>
                          let d' := dict_set d key v in
                          let '(r5, p5) := skip_ws r4 p4 in
                          match r5 with
                          | c5 :: r6 =>
                              if (c5 =? ch "}")%N then SOk (VDict d') r6 (S p5)
                              else if (c5 =? ch ",")%N then
                                let '(r7, p7) := skip_ws r6 (S p5) in
                                parse_object f niveis r7 p7 d'
                              else SErr (py "Expecting ',' delimiter") p5
                          | [] => SErr (py "Expecting ',' delimiter") p5
                          end
                      | SStop i => SStop i
                      | SErr m p => SErr m p
                      | SExc e => SExc e
                      end
                | [] => SErr (py "Expecting ':' delimiter") p1
                end
            | SStop i => SStop i
            | SErr m p => SErr m p
            | SExc e => SExc e
            end
      | [] => SErr msg_prop_name pos
      end
  end.

(** The interpreter stops at [sys.getrecursionlimit()], 1000 unless
    changed: the frames on the stack and the calls the scanner has entered
    stay below it together.  When [handler] is called from the top level of
    a module, six frames are on the stack as the scanner starts (the
    module, [handler], [criar_encurtamento], [loads], [decode] and
    [raw_decode]), which leaves 993 levels of nesting; a caller with more
    frames of its own leaves as many fewer. *)
Definition RECURSION_LIMIT : nat := 1000.
Definition QUADROS_NA_PILHA : nat := 6.
Definition NIVEIS_JSON : nat := RECURSION_LIMIT - 1 - QUADROS_NA_PILHA.

(** [json.loads(s)] for a [str] argument, as [criar_encurtamento] calls
    it. *)
Definition json_loads (s : str) : Res valor :=
  if startswith s [65279%N]
  then Raise (JSONDecodeError (py "Unexpected UTF-8 BOM (decode using utf-8-sig)") s 0)
  else
    let '(s1, p1) := skip_ws s 0 in
    match scan_once (2 * length s + 2) NIVEIS_JSON s1 p1 with
    | SOk v r p =>
        let '(r2, p2) := skip_ws r p in
        match r2 with
        | [] => Ok v
        | _ => Raise (JSONDecodeError (py "Extra data") s p2)
        end
    | SStop idx => Raise (JSONDecodeError (py "Expecting value") s idx)
    | SErr msg p => Raise (JSONDecodeError msg s p)
    | SExc e => Raise e
    end.

(** ** [json.dumps] of a dict of text

    [ensure_ascii] is on: [encode_basestring_ascii] escapes every code
    point outside the printable ASCII range. *)

Definition escape_ascii (c : N) : str :=
  if (c =? aspas)%N then [barra_inv; aspas]
  else if (c =? barra_inv)%N then [barra_inv; barra_inv]
  else if (c =? 10)%N then [barra_inv; ch "n"]
  else if (c =? 13)%N then [barra_inv; ch "r"]
  else if (c =? 9)%N then [barra_inv; ch "t"]
  else if (c =? 8)%N then [barra_inv; ch "b"]
  else if (c =? 12)%N then [barra_inv; ch "f"]
  else if (32 <=? c)%N && (c <=? 126)%N then [c]
  else if (c <? 65536)%N then barra_inv :: ch "u" :: hex4 c
  else
    let n := (c - 65536)%N in
    let s1 := N.lor 55296 (N.land (N.shiftr n 10) 1023) in
    let s2 := N.lor 56320 (N.land n 1023) in
    (barra_inv :: ch "u" :: hex4 s1) ++ (barra_inv :: ch "u" :: hex4 s2).

Definition encode_basestring_ascii (s : str) : str :=
  aspas :: flat_map escape_ascii s ++ [aspas].

Fixpoint join (sep : str) (l : list str) : str :=
  match l with
  | [] => []
  | [x] => x
  | x :: r => x ++ sep ++ join sep r
  end.

Definition json_dumps (d : list (str * str)) : str :=
  py "{"
    ++ join (py ", ")
         (map (fun kv => encode_basestring_ascii kv.1 ++ py ": "
                           ++ encode_basestring_ascii kv.2) d)
    ++ py "}".

(** ** [urllib.parse.urlparse]

    The model keeps what [url_valida] reads of the result, the scheme and
    the network location, and whether the call raises [ValueError]. *)

(** [s.split(sep)]. *)
Fixpoint split_on (sep : N) (s : str) : list str :=
  match s with
  | [] => [[]]
  | c :: r =>
      if (c =? sep)%N then [] :: split_on sep r
      else match split_on sep r with
           | p :: ps => (c :: p) :: ps
           | [] => [[c]]
           end
  end.

(** [s.partition(sep)]: text before the first [sep], whether [sep] was
    found, text after it. *)
Fixpoint partition (sep : N) (s : str) : str * bool * str :=
  match s with
  | [] => ([], false, [])
  | c :: r =>
      if (c =? sep)%N then ([], true, r)
      else let '(a, f, b) := partition sep r in (c :: a, f, b)
  end.

(** [s.rpartition(sep)[2]]: text after the last [sep], all of [s] when
    there is none. *)
Definition after_last (sep : N) (s : str) : str :=
  match split_on sep s with
  | [] => s
  | p :: ps => last ps p
  end.

(** *** [ipaddress] *)

Definition is_hex_digit (c : N) : bool :=
  match hex_val c with Some _ => true | None => false end.

(** [_BaseV4._parse_octet] succeeds. *)
Definition octet_ok (o : str) : bool :=
  match o with
  | [] => false
  | c0 :: _ =>
      forallb is_digit o
      && (length o <=? 3)
      && negb (negb (str_eqb o [ch "0"]) && (c0 =? ch "0")%N)
      && (int_of_digits o <=? 255)%Z
  end.

(** [IPv4Address(s)] succeeds. *)
Definition ipv4_ok (s : str) : bool :=
  negb (contem (ch "/") s)
  && negb (str_eqb s [])
  && (let octets := split_on (ch ".") s in
      (length octets =? 4) && forallb octet_ok octets).

(** [_BaseV6._parse_hextet] succeeds. *)
Definition hextet_ok (h : str) : bool :=
  forallb is_hex_digit h && (length h <=? 4) && negb (str_eqb h []).

(** Indices [1 .. len - 2] of the empty parts. *)
Definition empty_inner (parts : list str) : list nat :=
  filter (fun i => parts !! i = Some [])
         (seq 1 (length parts - 2)).

(** [_BaseV6._ip_int_from_string] succeeds. *)
Definition ipv6_parts_ok (addr : str) : bool :=
  if str_eqb addr [] then false
  else
    let parts0 := split_on (ch ":") addr in
    if length parts0 <? 3 then false
    else
      let ultimo := last parts0 [] in
      let conv :=
        if contem (ch ".") ultimo
        then if ipv4_ok ultimo
             then Some (removelast parts0 ++ [[ch "0"]; [ch "0"]])
             else None
        else Some parts0 in
      match conv with
      | None => false
      | Some parts =>
          let n := length parts in
          if 9 <? n then false
          else
            let primeiro_vazio := str_eqb (nth 0 parts []) [] in
            let ultimo_vazio := str_eqb (last parts []) [] in
            match empty_inner parts with
            | _ :: _ :: _ => false
            | [skip_index] =>
                let hi0 := skip_index in
                let lo0 := n - skip_index - 1 in
                let hi := if primeiro_vazio then hi0 - 1 else hi0 in
                let lo := if ultimo_vazio then lo0 - 1 else lo0 in
                if primeiro_vazio && negb (hi =? 0) then false
                else if ultimo_vazio && negb (lo =? 0) then false
                else if 8 - (hi + lo) <? 1 then false
                else forallb hextet_ok (take hi parts)
                     && forallb hextet_ok (drop (n - lo) parts)
            | [] =>
                if negb (n =? 8) then false
                else if primeiro_vazio then false
                else if ultimo_vazio then false
                else forallb hextet_ok parts
            end
      end.

(** [IPv6Address(s)] succeeds. *)
Definition ipv6_ok (s : str) : bool :=
  if contem (ch "/") s then false
  else
    let '(addr, sep, scope_id) := partition (ch "%") s in
    if sep && (str_eqb scope_id [] || contem (ch "%") scope_id) then false
    else ipv6_parts_ok addr.

Inductive ip_version := IPv4 | IPv6.

(** [ipaddress.ip_address(s)]: [None] when it raises [ValueError]. *)
Definition ip_address (s : str) : option ip_version :=
  if ipv4_ok s then Some IPv4
  else if ipv6_ok s then Some IPv6
  else None.

(** *** [urlsplit] *)

(** The pattern of an IPvFuture host: v, hexadecimal digits, a dot, then
    at least one more character. *)
Definition ipvfuture_ok (hostname : str) : bool :=
  match hostname with
  | v :: r =>
      (v =? ch "v")%N
      && (let fix go (seen : bool) (t : str) : bool :=
            match t with
            | c :: t' =>
                if is_hex_digit c then go true t'
                else seen && (c =? ch ".")%N && negb (str_eqb t' [])
            | [] => false
            end in
          go false r)
  | [] => false
  end.

(** [_check_bracketed_host] returns without raising. *)
Definition check_bracketed_host (hostname : str) : bool :=
  if startswith hostname [ch "v"] then ipvfuture_ok hostname
  else match ip_address hostname with
       | Some IPv6 => true
       | Some IPv4 => false
       | None => false
       end.

(** [_check_bracketed_netloc] returns without raising. *)
Definition check_bracketed_netloc (netloc : str) : bool :=
  let hostname_and_port := after_last (ch "@") netloc in
  let '(before_bracket, have_open_br, bracketed) :=
    partition (ch "[") hostname_and_port in
  if have_open_br then
    if negb (str_eqb before_bracket []) then false
    else
      let '(hostname, _, port) := partition (ch "]") bracketed in
      if negb (str_eqb port []) && negb (startswith port [ch ":"]) then false
      else check_bracketed_host hostname
  else
    let '(hostname, _, _) := partition (ch ":") hostname_and_port in
    check_bracketed_host hostname.

(** Code points whose NFKC form (Unicode 14.0) holds one of [/?#@:]. *)
Definition nfkc_delimitador (c : N) : bool :=
  existsb (N.eqb c)
    [8263; 8264; 8265; 8448; 8449; 8453; 8454; 10868; 65043; 65046;
     65109; 65110; 65119; 65131; 65283; 65295; 65306; 65311; 65312]%N.

(** [_checknetloc] returns without raising.  The netloc holds none of
    [/?#]; with [@], [:], [#] and [?] removed, its NFKC form holds one of
    the five delimiters exactly when one of its code points expands to
    one, since normalisation composes none away. *)
Definition checknetloc (netloc : str) : bool :=
  if str_eqb netloc [] || str_isascii netloc then true
  else negb (existsb nfkc_delimitador netloc).

Definition scheme_char (c : N) : bool :=
  is_lower c || is_upper c || is_digit c
  || (c =? ch "+")%N || (c =? ch "-")%N || (c =? ch ".")%N.

(** [_splitnetloc(url, 2)]: [url] is the text after the two slashes. *)
Fixpoint splitnetloc (url : str) : str * str :=
  match url with
  | [] => ([], [])
  | c :: r =>
      if (c =? ch "/")%N || (c =? ch "?")%N || (c =? ch "#")%N then ([], url)
      else let '(d, rest) := splitnetloc r in (c :: d, rest)
  end.

Record ParseResult := { scheme : str; netloc : str }.

(** [urlparse(url)] for a [str]: [None] when it raises [ValueError]. *)
Definition urlparse (url : str) : option ParseResult :=
  let url := lstrip (fun c => (c <=? 32)%N) url in
  let url := filter (fun c => c ≠ 9%N ∧ c ≠ 13%N ∧ c ≠ 10%N) url in
  let '(scheme, url) :=
    match find_char (ch ":") url, url with
    | Some (S i' as i), c0 :: _ =>
        if (is_lower c0 || is_upper c0) && forallb scheme_char (take i url)
        then (map ascii_lower (take i url), drop (S i) url)
        else ([], url)
    | _, _ => ([], url)
    end in
  match url with
  | a :: b :: r =>
      if (a =? ch "/")%N && (b =? ch "/")%N then
        let '(netloc, _) := splitnetloc r in
        let abre := contem (ch "[") netloc in
        let fecha := contem (ch "]") netloc in
        if (abre && negb fecha) || (fecha && negb abre) then None
        else if abre && fecha && negb (check_bracketed_netloc netloc) then None
        else if checknetloc netloc
             then Some {| scheme := scheme; netloc := netloc |}
             else None
      else Some {| scheme := scheme; netloc := [] |}
  | _ => Some {| scheme := scheme; netloc := [] |}
  end.

(** ** The world: table, random source, store faults, trace *)

(** An item of the table: attribute name to value.  The resource layer
    hands text, booleans, null, lists and maps back as they were written;
    a number comes back as a [Decimal], which has the truth value of the
    number and is no [str] either. *)
Abbreviation Item := (gmap str valor).

(** The calls the handler makes on the table. *)
Inductive Chamada :=
| PutItem (item : Item)
| GetItem (chave : str).

(** [tabela] is the DynamoDB table, keyed by its partition key [codigo].
    [sorteios] is the random source: draw [i] is the index the generator
    picks at its [i]-th use.  [falhas n] is the exception the service
    answers call number [n] with, if any (unavailability, permissions,
    throttling).  [chamadas] is the trace of calls, oldest first. *)
Record Mundo := {
  tabela : gmap str Item;
  sorteios : nat -> nat;
  proximo : nat;
  falhas : nat -> option Excecao;
  chamadas : list Chamada
}.

Definition com_tabela (t : gmap str Item) (w : Mundo) : Mundo :=
  {| tabela := t; sorteios := sorteios w; proximo := proximo w;
     falhas := falhas w; chamadas := chamadas w |}.

Definition com_proximo (p : nat) (w : Mundo) : Mundo :=
  {| tabela := tabela w; sorteios := sorteios w; proximo := p;
     falhas := falhas w; chamadas := chamadas w |}.

Definition com_chamadas (l : list Chamada) (w : Mundo) : Mundo :=
  {| tabela := tabela w; sorteios := sorteios w; proximo := proximo w;
     falhas := falhas w; chamadas := l |}.

(** Computations: state passing with exceptions.  A raised exception keeps
    the effects made before it. *)
Definition M (A : Type) : Type := Mundo -> Res A * Mundo.

Definition ret {A} (a : A) : M A := fun w => (Ok a, w).

Definition raise {A} (e : Excecao) : M A := fun w => (Raise e, w).

Definition bind {A B} (m : M A) (k : A -> M B) : M B :=
  fun w => match m w with
           | (Ok a, w') => k a w'
           | (Raise e, w') => (Raise e, w')
           end.

Definition lift {A} (r : Res A) : M A := fun w => (r, w).

(** [try: m / except: h] where [h] receives whatever was raised. *)
Definition tente {A} (m : M A) (h : Excecao -> M A) : M A :=
  fun w => match m w with
           | (Ok a, w') => (Ok a, w')
           | (Raise e, w') => h e w'
           end.

Notation "x <- m ;; k" := (bind m (fun x => k))
  (at level 100, m at next level, right associativity).

(** *** [random.choices] *)

(** One draw: an index below [n]. *)
Definition random_index (n : nat) : M nat :=
  fun w => (Ok (sorteios w (proximo w) mod n), com_proximo (S (proximo w)) w).

Fixpoint random_choices (population : str) (k : nat) : M str :=
  match k with
  | O => ret []
  | S k' =>
      i <- random_index (length population);;
      r <- random_choices population k';;
      ret (nth i population 0%N :: r)
  end.

(** *** The table resource *)

(** Every call is traced; the service may answer it with a fault. *)
Definition chamar (c : Chamada) : M unit :=
  fun w =>
    let w' := com_chamadas (chamadas w ++ [c]) w in
    match falhas w (length (chamadas w)) with
    | Some e => (Raise e, w')
    | None => (Ok tt, w')
    end.

Definition ConditionalCheckFailed : Excecao :=
  ClientError (py "ConditionalCheckFailedException")
    (py "An error occurred (ConditionalCheckFailedException) when calling the PutItem operation: The conditional request failed").

Definition ValidationException (operation detalhe : str) : Excecao :=
  ClientError (py "ValidationException")
    (py "An error occurred (ValidationException) when calling the " ++ operation
        ++ py " operation: " ++ detalhe).

Definition chave_vazia : str :=
  py "One or more parameter values are not valid. The AttributeValue for a key attribute cannot contain an empty string value. Key: codigo".

(** The DynamoDB type descriptor of a value. *)
Definition tipo_dynamodb (v : valor) : str :=
  match v with
  | VNone => py "NULL"
  | VBool _ => py "BOOL"
  | VInt _ | VFloat _ => py "N"
  | VStr _ => py "S"
  | VList _ => py "L"
  | VDict _ => py "M"
  end.

Definition gravar (k : str) (item : Item) : M unit :=
  fun w => (Ok tt, com_tabela (<[k := item]> (tabela w)) w).

(** [tabela.put_item(Item=item,
                     ConditionExpression="attribute_not_exists(codigo)")]:
    the item is written only when the table holds none under its key. *)
Definition put_item (item : Item) : M unit :=
  _ <- chamar (PutItem item);;
  match item !! py "codigo" with
  | Some (VStr ((_ :: _) as k)) =>
      fun w => match tabela w !! k with
               | Some _ => (Raise ConditionalCheckFailed, w)
               | None => gravar k item w
               end
  | Some (VStr []) => raise (ValidationException (py "PutItem") chave_vazia)
  | Some v =>
      raise (ValidationException (py "PutItem")
               (py "One or more parameter values were invalid: Type mismatch for key codigo expected: S actual: "
                   ++ tipo_dynamodb v))
  | None =>
      raise (ValidationException (py "PutItem")
               (py "One or more parameter values were invalid: Missing the key codigo in the item"))
  end.

(** [tabela.get_item(Key={"codigo": codigo}).get("Item")]. *)
Definition get_item (codigo : str) : M (option Item) :=
  _ <- chamar (GetItem codigo);;
  match codigo with
  | [] => raise (ValidationException (py "GetItem") chave_vazia)
  | _ => fun w => (Ok (tabela w !! codigo), w)
  end.

(** *** The module [boto3.exceptions] *)

(** Exception classes a name can be bound to. *)
Inductive Classe :=
| Classe_ClientError             (* botocore.exceptions.ClientError *)
| Classe_boto3 (nome : str).     (* a class that boto3.exceptions defines *)

Definition isinstance (e : Excecao) (c : Classe) : bool :=
  match c, e with
  | Classe_ClientError, ClientError _ _ => true
  | _, _ => false
  end.

(** A module: the classes its names are bound to. *)
Abbreviation Modulo := (list (str * Classe)).

(** The classes [boto3/exceptions.py] defines.  The module imports
    [botocore.exceptions] as a whole and binds no name [ClientError]. *)
Definition boto3_exceptions : Modulo :=
  map (fun n => (py n, Classe_boto3 (py n)))
    ["Boto3Error"; "ResourceLoadException"; "NoVersionFound";
     "UnknownAPIVersionError"; "ResourceNotExistsError";
     "RetriesExceededError"; "S3TransferFailedError"; "S3UploadFailedError";
     "DynamoDBOperationNotSupportedError"; "DynanmoDBOperationNotSupportedError";
     "DynamoDBNeedsConditionError"; "DynamoDBNeedsKeyConditionError";
     "PythonDeprecationWarning"]%string.

(** The same module with [ClientError] re-exported from botocore. *)
Definition boto3_exceptions_com_ClientError : Modulo :=
  boto3_exceptions ++ [(py "ClientError", Classe_ClientError)].

(** Attribute access [modulo.attr]. *)
Definition getattr (nome : str) (m : Modulo) (attr : str) : Res Classe :=
  match find (fun e => str_eqb e.1 attr) m with
  | Some e => Ok e.2
  | None =>
      Raise (AttributeError
               (py "module '" ++ nome ++ py "' has no attribute '" ++ attr ++ py "'"))
  end.

(** ** The handler: [app.py] *)

Definition TAMANHO_CODIGO : nat := 6.

(** [string.ascii_letters + string.digits]. *)
Definition CARACTERES : str :=
  py "abcdefghijklmnopqrstuvwxyzABCDEFGHIJKLMNOPQRSTUVWXYZ" ++ py "0123456789".

Definition gerar_codigo : M str := random_choices CARACTERES TAMANHO_CODIGO.

(** [url_valida(url)].  For an argument that is no [str], [urlparse]
    either fails on [url.decode] (caught by the bare [except]) or parses
    the empty text; the answer is [False] both ways. *)
Definition url_valida (url : valor) : bool :=
  match url with
  | VStr u =>
      match urlparse u with
      | Some p =>
          (str_eqb (scheme p) (py "http") || str_eqb (scheme p) (py "https"))
          && negb (str_eqb (netloc p) [])
      | None => false
      end
  | _ => false
  end.

(** A key of the event that the code reads in more than one way: missing,
    null, or holding a value. *)
Inductive Campo (A : Type) :=
| Ausente
| Nulo
| Valor (a : A).
Arguments Ausente {A}.
Arguments Nulo {A}.
Arguments Valor {A} a.

(** [evento.get(k)]: [None] for a missing key and for null alike. *)
Definition campo_get {A} (c : Campo A) : option A :=
  match c with
  | Valor a => Some a
  | Ausente | Nulo => None
  end.

(** [evento.get(k, padrao)]: the default stands in for a missing key only;
    a null comes back as [None]. *)
Definition campo_get_ou {A} (c : Campo A) (padrao : A) : option A :=
  match c with
  | Valor a => Some a
  | Ausente => Some padrao
  | Nulo => None
  end.

(** [evento[k]]: a missing key raises [KeyError]; a null comes back as
    [None]. *)
Definition campo_item {A} (k : str) (c : Campo A) : Res (option A) :=
  match c with
  | Valor a => Ok (Some a)
  | Nulo => Ok None
  | Ausente => Raise (KeyError k)
  end.

(** The event of the API Gateway proxy integration, as far as the handler
    reads it.  [httpMethod] and [body] are read with [evento.get(k)] alone,
    which answers [None] for a missing key and for null alike: there
    [None] is either.  [path] is read with a default and [pathParameters]
    also by subscript, which tell a missing key from null. *)
Record Evento := {
  httpMethod : option str;
  path : Campo str;
  pathParameters : Campo (gmap str str);
  body : option str
}.

(** The response dict; [headers] is [None] when the key is absent. *)
Record Resposta := {
  statusCode : Z;
  headers : option (list (str * valor));
  rbody : str
}.

Definition resposta (status : Z) (b : str) : Resposta :=
  {| statusCode := status; headers := None; rbody := b |}.

Definition resposta_erro (status : Z) (erro : str) : Resposta :=
  resposta status (json_dumps [(py "erro", erro)]).

(** The name of the type of a value, as error messages print it. *)
Definition nome_tipo (v : valor) : str :=
  match v with
  | VNone => py "NoneType"
  | VBool _ => py "bool"
  | VInt _ => py "int"
  | VFloat _ => py "float"
  | VStr _ => py "str"
  | VList _ => py "list"
  | VDict _ => py "dict"
  end.

Definition sem_atributo (tipo attr : str) : Excecao :=
  AttributeError (py "'" ++ tipo ++ py "' object has no attribute '" ++ attr ++ py "'").

(** [v.get(k)]: only a dict has the method. *)
Definition metodo_get (v : valor) (k : str) : Res valor :=
  match v with
  | VDict d => Ok (dict_get d k)
  | _ => Raise (sem_atributo (nome_tipo v) (py "get"))
  end.

(** [x or y] on text that may be absent. *)
Definition ou (x : option str) (y : str) : str :=
  match x with
  | Some ((_ :: _) as s) => s
  | _ => y
  end.

(** The outer [try: ... except Exception as e: return 500]. *)
Definition exceto_Exception (m : M Resposta) : Mundo -> Resposta * Mundo :=
  fun w => match m w with
           | (Ok r, w') => (r, w')
           | (Raise e, w') => (resposta_erro 500 (str_exc e), w')
           end.

Definition item_novo (codigo : str) (url_original : valor) : Item :=
  {[ py "codigo" := VStr codigo; py "url_original" := url_original ]}.

(** The loop [for _ in range(n)] of [criar_encurtamento]: [Some codigo]
    after [break], [None] when the loop runs out ([else]).  The clause
    [except boto3.exceptions.ClientError as e] first evaluates the
    attribute in [excs], then tests the raised exception against it. *)
Fixpoint tentativas (excs : Modulo) (n : nat) (url_original : valor) : M (option str) :=
  match n with
  | O => ret None
  | S n' =>
      codigo <- gerar_codigo;;
      tente (_ <- put_item (item_novo codigo url_original);; ret (Some codigo))
        (fun exc =>
           classe <- lift (getattr (py "boto3.exceptions") excs (py "ClientError"));;
           if isinstance exc classe then
             match exc with
             | ClientError Code _ =>
                 if str_eqb Code (py "ConditionalCheckFailedException")
                 then tentativas excs n' url_original
                 else raise exc
             | _ => raise exc
             end
           else raise exc)
  end.

(** [criar_encurtamento(evento)], with the module object that the global
    name [boto3.exceptions] denotes. *)
Definition criar_encurtamento_em (excs : Modulo) (evento : Evento)
  : Mundo -> Resposta * Mundo :=
  exceto_Exception
    (corpo <- lift (json_loads (ou (body evento) (py "{}")));;
     url_original <- lift (metodo_get corpo (py "url"));;
     if negb (truthy url_original) || negb (url_valida url_original) then
       ret (resposta_erro 400
              (pyq "URL inválida. Envie no formato: {'url': 'https://site.com'}"))
     else
       r <- tentativas excs 5 url_original;;
       match r with
       | None => ret (resposta_erro 500 (py "Falha ao gerar código único."))
       | Some codigo =>
           ret (resposta 201
                  (json_dumps [(py "mensagem", py "URL encurtada com sucesso!");
                               (py "codigo", codigo);
                               (py "url_encurtada", py "/" ++ codigo)]))
       end).

Definition criar_encurtamento : Evento -> Mundo -> Resposta * Mundo :=
  criar_encurtamento_em boto3_exceptions.

(** [redirecionar(evento)]. *)
Definition redirecionar (evento : Evento) : Mundo -> Resposta * Mundo :=
  exceto_Exception
    (valor <- lift (campo_item (py "pathParameters") (pathParameters evento));;
     params <- match valor with
               | Some d => ret d
               | None => raise (sem_atributo (py "NoneType") (py "get"))
               end;;
     match params !! py "codigo" with
     | None | Some [] => ret (resposta_erro 400 (py "Código não informado."))
     | Some codigo =>
         item <- get_item codigo;;
         let url_original :=
           match item with
           | Some i => default VNone (i !! py "url_original")
           | None => VNone
           end in
         if negb (truthy url_original) then
           ret (resposta_erro 404 (py "Código não encontrado."))
         else if negb (url_valida url_original) then
           ret (resposta_erro 500 (py "URL original inválida no DB."))
         else
           ret {| statusCode := 301;
                  headers := Some [(py "Location", url_original)];
                  rbody := [] |}
     end).

(** [return f(evento)] for a function that always answers. *)
Definition retornar (f : Mundo -> Resposta * Mundo) : M Resposta :=
  fun w => (Ok (f w).1, (f w).2).

(** [handler(evento, contexto)].  No [try] surrounds its body: what is
    raised here leaves the handler.  [caminho.endswith] is evaluated only
    when the method is POST, and raises when [caminho] is [None]. *)
Definition handler_em (excs : Modulo) (evento : Evento) (contexto : unit)
  : M Resposta :=
  let metodo := httpMethod evento in
  let caminho := campo_get_ou (path evento) [] in
  rota_criar <- (if bool_decide (metodo = Some (py "POST")) then
                   match caminho with
                   | Some c => ret (endswith c (py "/encurtar"))
                   | None => raise (sem_atributo (py "NoneType") (py "endswith"))
                   end
                 else ret false);;
  if rota_criar
  then retornar (criar_encurtamento_em excs evento)
  else if bool_decide (metodo = Some (py "GET"))
          && match campo_get (pathParameters evento) with
             | Some d =>
                 negb (bool_decide (d = ∅))
                 && match d !! py "codigo" with
                    | Some (_ :: _) => true
                    | _ => false
                    end
             | None => false
             end
  then retornar (redirecionar evento)
  else ret (resposta_erro 400 (py "Requisição inválida ou rota não encontrada.")).

Definition handler : Evento -> unit -> M Resposta :=
  handler_em boto3_exceptions.

(** ** Vocabulary of the statements *)

(** The service answers the next call on the table without a fault. *)
Definition sem_falha (w : Mundo) : Prop :=
  falhas w (length (chamadas w)) = None.

(** The code [gerar_codigo] builds from the draws [p .. p + 5] of [s]. *)
Definition codigo_em (s : nat -> nat) (p : nat) : str :=
  map (fun j => nth (s (p + j) mod length CARACTERES) CARACTERES 0%N)
      (seq 0 TAMANHO_CODIGO).

(** The [i]-th code generated from world [w] on. *)
Definition codigo_n (w : Mundo) (i : nat) : str :=
  codigo_em (sorteios w) (proximo w + TAMANHO_CODIGO * i).

(** The world after one traced call. *)
Definition registrada (c : Chamada) (w : Mundo) : Mundo :=
  com_chamadas (chamadas w ++ [c]) w.

(** The world after [n] attempts that all met an existing code. *)
Definition apos_colisoes (n : nat) (u : valor) (w : Mundo) : Mundo :=
  com_chamadas
    (chamadas w ++ map (λ i, PutItem (item_novo (codigo_n w i) u)) (seq 0 n))
    (com_proximo (proximo w + TAMANHO_CODIGO * n) w).

(** From [w] to [w']: records are kept, the random source and the fault
    schedule are the same, the trace is extended. *)
Definition cresce (w w' : Mundo) : Prop :=
  tabela w ⊆ tabela w' ∧ sorteios w' = sorteios w ∧ falhas w' = falhas w
  ∧ ∃ l, chamadas w' = chamadas w ++ l.

Definition monotona {A} (m : M A) : Prop :=
  ∀ w r w', m w = (r, w') → cresce w w'.

(** From [w] to [w'] by reading only: the table is the same and the trace
    gains [GetItem] calls. *)
Definition so_leitura (w w' : Mundo) : Prop :=
  tabela w' = tabela w ∧ sorteios w' = sorteios w ∧ proximo w' = proximo w
  ∧ falhas w' = falhas w
  ∧ ∃ l, chamadas w' = chamadas w ++ l ∧ Forall (λ c, ∃ k, c = GetItem k) l.

(** The value [redirecionar] reads for a code. *)
Definition url_no_banco (w : Mundo) (c : str) : valor :=
  match tabela w !! c with
  | Some i => default VNone (i !! py "url_original")
  | None => VNone
  end.

(** What evaluating [boto3.exceptions.ClientError] raises. *)
Definition erro_sem_ClientError : Excecao :=
  AttributeError (py "module 'boto3.exceptions' has no attribute 'ClientError'").

(** [criar_encurtamento] had the module re-exported [ClientError]. *)
Definition criar_encurtamento_pretendido : Evento -> Mundo -> Resposta * Mundo :=
  criar_encurtamento_em boto3_exceptions_com_ClientError.

(** The two routes of the handler. *)
Definition rota_criar (ev : Evento) : Prop :=
  httpMethod ev = Some (py "POST")
  ∧ ∃ q, campo_get_ou (path ev) [] = Some (q ++ py "/encurtar").

Definition rota_resolver (ev : Evento) : Prop :=
  httpMethod ev = Some (py "GET")
  ∧ ∃ d c, pathParameters ev = Valor d ∧ d !! py "codigo" = Some c ∧ c ≠ [].

(** A POST whose path is null. *)
Definition caminho_nulo (ev : Evento) : Prop :=
  httpMethod ev = Some (py "POST") ∧ path ev = Nulo.

(** What [caminho.endswith] raises on [None]. *)
Definition erro_sem_endswith : Excecao :=
  sem_atributo (py "NoneType") (py "endswith").

(** The answers of the handler. *)
Definition resposta_rota : Resposta :=
  resposta_erro 400 (py "Requisição inválida ou rota não encontrada.").

Definition resposta_nao_encontrado : Resposta :=
  resposta_erro 404 (py "Código não encontrado.").

Definition resposta_url_corrompida : Resposta :=
  resposta_erro 500 (py "URL original inválida no DB.").

Definition resposta_url_invalida : Resposta :=
  resposta_erro 400
    (pyq "URL inválida. Envie no formato: {'url': 'https://site.com'}").

Definition resposta_esgotado : Resposta :=
  resposta_erro 500 (py "Falha ao gerar código único.").

(** The body and status of the answer to a successful creation. *)
Definition resposta_criado (codigo : str) : Resposta :=
  resposta 201
    (json_dumps [(py "mensagem", py "URL encurtada com sucesso!");
                 (py "codigo", codigo);
                 (py "url_encurtada", py "/" ++ codigo)]).

Definition resposta_redirecionar (url : str) : Resposta :=
  {| statusCode := 301;
     headers := Some [(py "Location", VStr url)];
     rbody := [] |}.

(** A letter of either case or a digit. *)
Definition alfanumerico (c : N) : bool := is_lower c || is_upper c || is_digit c.

(** The call is a conditional write. *)
Definition e_put (c : Chamada) : Prop := ∃ item, c = PutItem item.

Definition resposta_sem_codigo : Resposta :=
  resposta_erro 400 (py "Código não informado.").

(** The status is one of the five the handler uses; a header is present
    exactly with 301, and the body is empty exactly with 301. *)
Definition resposta_prevista (r : Resposta) : Prop :=
  (statusCode r = 201%Z ∨ statusCode r = 301%Z ∨ statusCode r = 400%Z
   ∨ statusCode r = 404%Z ∨ statusCode r = 500%Z)
  ∧ (headers r ≠ None ↔ statusCode r = 301%Z)
  ∧ (rbody r = [] ↔ statusCode r = 301%Z).

(** Every record sits under its own six-character code and holds a url
    that passes [url_valida]. *)
Definition tabela_integra (t : gmap str Item) : Prop :=
  ∀ k i, t !! k = Some i →
         length k = TAMANHO_CODIGO
         ∧ i !! py "codigo" = Some (VStr k)
         ∧ ∃ u, i !! py "url_original" = Some (VStr u) ∧ url_valida (VStr u) = true.

(** The text [urlparse] splits: leading spaces and C0 controls stripped,
    then tabs and line breaks removed. *)
Definition url_limpa (s : str) : str :=
  filter (fun c => c ≠ 9%N ∧ c ≠ 13%N ∧ c ≠ 10%N) (lstrip (fun c => (c <=? 32)%N) s).

(** One of the three characters that end the authority of a url. *)
Definition fim_de_netloc (c : N) : bool :=
  (c =? ch "/")%N || (c =? ch "?")%N || (c =? ch "#")%N.

(** A printable ASCII character other than the space, the three that end
    the authority, and the square brackets. *)
Definition simples (c : N) : bool :=
  (32 <? c)%N && (c <? 128)%N && negb (fim_de_netloc c)
  && negb (c =? ch "[")%N && negb (c =? ch "]")%N.

(** [http] or [https], in any mix of letter cases. *)
Definition esquema_http (e : str) : Prop :=
  map ascii_lower e = py "http" ∨ map ascii_lower e = py "https".

(** ** Sample worlds and events *)

Definition mundo_vazio : Mundo :=
  {| tabela := ∅; sorteios := fun _ => 0; proximo := 0;
     falhas := fun _ => None; chamadas := [] |}.

Definition evento_post (b : str) : Evento :=
  {| httpMethod := Some (py "POST"); path := Valor (py "/encurtar");
     pathParameters := Nulo; body := Some b |}.

Definition evento_get (c : str) : Evento :=
  {| httpMethod := Some (py "GET"); path := Valor (py "/" ++ c);
     pathParameters := Valor {[ py "codigo" := c ]}; body := None |}.

Definition exemplo_url : str := py "https://example.com".
Definition exemplo_corpo : str := pyq "{'url': 'https://example.com'}".
Definition exemplo_corpo_2 : str := pyq "{'url': 'http://outro.example/b'}".

(** A world whose table holds a record under [c]. *)
Definition mundo_com (c : str) (url : valor) (s : nat -> nat) : Mundo :=
  {| tabela := {[ c := item_novo c url ]}; sorteios := s; proximo := 0;
     falhas := fun _ => None; chamadas := [] |}.

(** Every draw is 0: every generated code is [aaaaaa]. *)
Definition mundo_esgotado : Mundo :=
  mundo_com (py "aaaaaa") (VStr (py "http://old.example/")) (fun _ => 0).

(** The first code is [aaaaaa], every later one [bbbbbb]. *)
Definition mundo_uma_colisao : Mundo :=
  mundo_com (py "aaaaaa") (VStr (py "http://old.example/"))
            (fun i => if i <? 6 then 0 else 1).

(** A record whose url is empty, and one whose url is no http(s) url. *)
Definition mundo_url_vazia : Mundo :=
  mundo_com (py "abc123") (VStr []) (fun _ => 0).

Definition mundo_url_ftp : Mundo :=
  mundo_com (py "abc123") (VStr (py "ftp://host/x")) (fun _ => 0).

(** A POST whose path is null. *)
Definition evento_post_sem_caminho : Evento :=
  {| httpMethod := Some (py "POST"); path := Nulo;
     pathParameters := Nulo; body := Some exemplo_corpo |}.

Definition evento_delete : Evento :=
  {| httpMethod := Some (py "DELETE"); path := Valor (py "/x");
     pathParameters := Nulo; body := None |}.

(** A world whose table is unavailable. *)
Definition mundo_fora_do_ar : Mundo :=
  {| tabela := ∅; sorteios := fun _ => 0; proximo := 0;
     falhas := fun _ => Some (BotoCoreError (py "Could not connect to the endpoint URL"));
     chamadas := [] |}.

(** Random source with two distinct codes: [aaaaaa], then [bbbbbb]. *)
Definition mundo_dois_codigos : Mundo :=
  {| tabela := ∅; sorteios := fun i => if i <? 6 then 0 else 1; proximo := 0;
     falhas := fun _ => None; chamadas := [] |}.

(** * Properties *)

(** ** Text *)

Lemma str_eqb_eq (a b : str) : str_eqb a b = true ↔ a = b.
Proof. unfold str_eqb. apply bool_decide_eq_true. Qed.

Lemma str_eqb_neq (a b : str) : str_eqb a b = false ↔ a ≠ b.
Proof. unfold str_eqb. apply bool_decide_eq_false. Qed.

(** ** The random source *)

Lemma random_choices_spec (pop : str) (k : nat) (w : Mundo) :
  random_choices pop k w =
    (Ok (map (fun j => nth (sorteios w (proximo w + j) mod length pop) pop 0%N) (seq 0 k)),
     com_proximo (proximo w + k) w).
Proof.
  revert w. induction k as [|k IH]; intros w.
  - simpl. unfold ret, com_proximo. destruct w; simpl. by rewrite Nat.add_0_r.
  - cbn [random_choices]. unfold bind at 1. unfold random_index at 1.
    unfold bind at 1. rewrite IH. unfold ret. cbn [sorteios proximo com_proximo].
    f_equal.
    + f_equal. cbn [seq map]. rewrite Nat.add_0_r. f_equal.
      rewrite <- seq_shift, map_map. apply map_ext. intros j.
      by rewrite Nat.add_succ_comm.
    + unfold com_proximo; simpl. f_equal. lia.
Qed.

Lemma gerar_codigo_spec (w : Mundo) :
  gerar_codigo w = (Ok (codigo_n w 0), com_proximo (proximo w + TAMANHO_CODIGO) w).
Proof.
  unfold gerar_codigo. rewrite random_choices_spec. unfold codigo_n, codigo_em.
  by rewrite Nat.mul_0_r, Nat.add_0_r.
Qed.

Lemma codigo_em_length s p : length (codigo_em s p) = 6.
Proof. unfold codigo_em. by rewrite length_map, length_seq. Qed.

Lemma codigo_em_cons s p : ∃ c r, codigo_em s p = c :: r.
Proof.
  pose proof (codigo_em_length s p) as H.
  destruct (codigo_em s p) as [|c r]; [discriminate|eauto].
Qed.

(** ** The table *)

Lemma item_novo_codigo c u : item_novo c u !! py "codigo" = Some (VStr c).
Proof. unfold item_novo. by rewrite lookup_insert_eq. Qed.

Lemma item_novo_url c u : item_novo c u !! py "url_original" = Some u.
Proof.
  unfold item_novo. rewrite lookup_insert_ne by (vm_compute; discriminate).
  by rewrite lookup_singleton_eq.
Qed.

(** Every character of a code is a letter or a digit. *)
Lemma codigo_em_alfabeto s p : Forall (λ x, alfanumerico x = true) (codigo_em s p).
Proof.
  unfold codigo_em. apply Forall_map, Forall_forall. intros j _.
  assert (forallb alfanumerico CARACTERES = true) as Ha by (vm_compute; reflexivity).
  rewrite forallb_forall in Ha. apply Ha, nth_In.
  apply Nat.mod_upper_bound. vm_compute. discriminate.
Qed.

#[local] Opaque item_novo codigo_em.

Lemma put_item_falha item e w :
  falhas w (length (chamadas w)) = Some e →
  put_item item w = (Raise e, registrada (PutItem item) w).
Proof.
  intros H. unfold put_item, bind, chamar. by rewrite H.
Qed.

Lemma put_item_colisao c u w :
  sem_falha w → c ≠ [] → is_Some (tabela w !! c) →
  put_item (item_novo c u) w
  = (Raise ConditionalCheckFailed, registrada (PutItem (item_novo c u)) w).
Proof.
  intros Hf Hc [i Hi]. unfold put_item, bind, chamar. rewrite Hf.
  rewrite item_novo_codigo. destruct c as [|c0 r]; [congruence|].
  cbn [tabela com_chamadas]. rewrite Hi. reflexivity.
Qed.

Lemma put_item_novo c u w :
  sem_falha w → c ≠ [] → tabela w !! c = None →
  put_item (item_novo c u) w
  = (Ok tt, com_tabela (<[c := item_novo c u]> (tabela w))
              (registrada (PutItem (item_novo c u)) w)).
Proof.
  intros Hf Hc Hi. unfold put_item, bind, chamar. rewrite Hf.
  rewrite item_novo_codigo. destruct c as [|c0 r]; [congruence|].
  cbn [tabela com_chamadas]. rewrite Hi. reflexivity.
Qed.

Lemma getattr_real :
  getattr (py "boto3.exceptions") boto3_exceptions (py "ClientError")
  = Raise (AttributeError (py "module 'boto3.exceptions' has no attribute 'ClientError'")).
Proof. vm_compute. reflexivity. Qed.

Lemma getattr_com :
  getattr (py "boto3.exceptions") boto3_exceptions_com_ClientError (py "ClientError")
  = Ok Classe_ClientError.
Proof. vm_compute. reflexivity. Qed.

(** ** The loop of [criar_encurtamento] *)

(** One iteration of the loop under the module as boto3 ships it. *)
Lemma tentativas_real_S n u w :
  tentativas boto3_exceptions (S n) u w =
    let c := codigo_n w 0 in
    match put_item (item_novo c u) (com_proximo (proximo w + TAMANHO_CODIGO) w) with
    | (Ok _, w') => (Ok (Some c), w')
    | (Raise _, w') => (Raise erro_sem_ClientError, w')
    end.
Proof.
  cbn [tentativas]. unfold bind at 1. rewrite gerar_codigo_spec. cbn zeta.
  unfold tente. unfold bind at 1.
  destruct (put_item _ _) as [[[]|e] w']; [done|].
  unfold bind, lift. by rewrite getattr_real.
Qed.

(** One iteration when the name resolves to botocore's class. *)
Lemma tentativas_com_S n u w :
  tentativas boto3_exceptions_com_ClientError (S n) u w =
    let c := codigo_n w 0 in
    match put_item (item_novo c u) (com_proximo (proximo w + TAMANHO_CODIGO) w) with
    | (Ok _, w') => (Ok (Some c), w')
    | (Raise (ClientError Code t), w') =>
        if str_eqb Code (py "ConditionalCheckFailedException")
        then tentativas boto3_exceptions_com_ClientError n u w'
        else (Raise (ClientError Code t), w')
    | (Raise e, w') => (Raise e, w')
    end.
Proof.
  cbn [tentativas]. unfold bind at 1. rewrite gerar_codigo_spec. cbn zeta.
  unfold tente. unfold bind at 1.
  destruct (put_item _ _) as [[[]|e] w']; [done|].
  unfold bind at 1, lift. rewrite getattr_com.
  destruct e; try done. cbn [isinstance].
  by destruct (str_eqb _ _).
Qed.

(** ** What every computation of the handler preserves *)

Lemma cresce_refl w : cresce w w.
Proof. repeat split; [done.. | exists []; by rewrite app_nil_r]. Qed.

Lemma cresce_trans w1 w2 w3 : cresce w1 w2 → cresce w2 w3 → cresce w1 w3.
Proof.
  intros (Ht & Hs & Hf & l & Hl) (Ht' & Hs' & Hf' & l' & Hl').
  repeat split; [by etrans | congruence | congruence |].
  exists (l ++ l'). by rewrite Hl', Hl, app_assoc.
Qed.

Lemma monotona_ret {A} (a : A) : monotona (ret a).
Proof. intros w r w' [= <- <-]. apply cresce_refl. Qed.

Lemma monotona_raise {A} e : monotona (@raise A e).
Proof. intros w r w' [= <- <-]. apply cresce_refl. Qed.

Lemma monotona_lift {A} (x : Res A) : monotona (lift x).
Proof. intros w r w' [= <- <-]. apply cresce_refl. Qed.

Lemma monotona_bind {A B} (m : M A) (k : A → M B) :
  monotona m → (∀ a, monotona (k a)) → monotona (bind m k).
Proof.
  intros Hm Hk w r w'. unfold bind.
  destruct (m w) as [[a|e] w1] eqn:E; intros H.
  - eapply cresce_trans; [by eapply Hm | by eapply Hk].
  - injection H as <- <-. by eapply Hm.
Qed.

Lemma monotona_tente {A} (m : M A) (h : Excecao → M A) :
  monotona m → (∀ e, monotona (h e)) → monotona (tente m h).
Proof.
  intros Hm Hh w r w'. unfold tente.
  destruct (m w) as [[a|e] w1] eqn:E; intros H.
  - injection H as <- <-. by eapply Hm.
  - eapply cresce_trans; [by eapply Hm | by eapply Hh].
Qed.

Lemma monotona_random_choices pop k : monotona (random_choices pop k).
Proof.
  intros w r w'. rewrite random_choices_spec. intros [= <- <-].
  repeat split; [done.. | exists []; by rewrite app_nil_r].
Qed.

Lemma monotona_chamar c : monotona (chamar c).
Proof.
  intros w r w'. unfold chamar.
  destruct (falhas w _); intros [= <- <-];
    (repeat split; [done.. | by exists [c]]).
Qed.

Lemma monotona_put_item item : monotona (put_item item).
Proof.
  unfold put_item. apply monotona_bind; [apply monotona_chamar|]. intros _.
  destruct (item !! py "codigo") as [[| | | |[|c0 k]| |]|];
    try apply monotona_raise.
  intros w r w'. destruct (tabela w !! (c0 :: k)) eqn:E.
  - intros [= <- <-]. apply cresce_refl.
  - unfold gravar. intros [= <- <-].
    repeat split; [by apply insert_subseteq | done.. | exists []; by rewrite app_nil_r].
Qed.

Lemma monotona_get_item c : monotona (get_item c).
Proof.
  unfold get_item. apply monotona_bind; [apply monotona_chamar|]. intros _.
  destruct c; [apply monotona_raise|].
  intros w r w' [= <- <-]. apply cresce_refl.
Qed.

Lemma monotona_tentativas excs n u : monotona (tentativas excs n u).
Proof.
  induction n as [|n IH]; cbn [tentativas]; [apply monotona_ret|].
  apply monotona_bind; [apply monotona_random_choices|]. intros c.
  apply monotona_tente.
  - apply monotona_bind; [apply monotona_put_item | intros; apply monotona_ret].
  - intros e. apply monotona_bind; [apply monotona_lift|]. intros cl.
    destruct (isinstance e cl); [|apply monotona_raise].
    destruct e; try apply monotona_raise.
    destruct (str_eqb _ _); [apply IH | apply monotona_raise].
Qed.

Lemma monotona_exceto (m : M Resposta) w :
  monotona m → cresce w (exceto_Exception m w).2.
Proof.
  intros Hm. unfold exceto_Exception.
  destruct (m w) as [[r|e] w'] eqn:E; by eapply Hm.
Qed.

Lemma criar_cresce excs ev w : cresce w (criar_encurtamento_em excs ev w).2.
Proof.
  apply monotona_exceto.
  apply monotona_bind; [apply monotona_lift|]. intros v.
  apply monotona_bind; [apply monotona_lift|]. intros u.
  destruct (_ || _); [apply monotona_ret|].
  apply monotona_bind; [apply monotona_tentativas|].
  intros [c|]; apply monotona_ret.
Qed.

Lemma so_leitura_refl w : so_leitura w w.
Proof. repeat split; [done.. |]. exists []. by rewrite app_nil_r. Qed.

Lemma redirecionar_le ev w : so_leitura w (redirecionar ev w).2.
Proof.
  unfold redirecionar, exceto_Exception, bind, lift, campo_item.
  destruct (pathParameters ev) as [| |d];
    [apply so_leitura_refl | apply so_leitura_refl |].
  cbv beta iota. unfold ret at 1.
  destruct (d !! py "codigo") as [[|c0 c]|]; [apply so_leitura_refl| |apply so_leitura_refl].
  unfold get_item, bind, chamar.
  assert (so_leitura w (com_chamadas (chamadas w ++ [GetItem (c0 :: c)]) w)) as Hs.
  { repeat split; [done.. |]. exists [GetItem (c0 :: c)]. split; [done|].
    constructor; [by eexists | constructor]. }
  destruct (falhas w _); [exact Hs|].
  cbn [tabela com_chamadas].
  repeat match goal with |- context [if ?b then _ else _] => destruct b end;
    exact Hs.
Qed.

Lemma startswith_spec (s p : str) : startswith s p = true ↔ ∃ r, s = p ++ r.
Proof.
  revert s. induction p as [|a p IH]; intros [|b s]; simpl.
  - split; [intros _; by exists [] | done].
  - split; [intros _; by exists (b :: s) | done].
  - split; [done | intros [r Hr]; discriminate].
  - rewrite andb_true_iff, N.eqb_eq, IH. split.
    + intros [-> [r ->]]. by exists r.
    + intros [r [= -> ->]]. split; [done | by exists r].
Qed.

Lemma endswith_spec (s p : str) : endswith s p = true ↔ ∃ q, s = q ++ p.
Proof.
  unfold endswith. rewrite startswith_spec. split.
  - intros [r Hr]. exists (rev r).
    apply (f_equal (@rev N)) in Hr. by rewrite rev_involutive, rev_app_distr, rev_involutive in Hr.
  - intros [q ->]. exists (rev q). by rewrite rev_app_distr.
Qed.

(** [handler] with its first test evaluated. *)
Lemma handler_em_eq excs ev w :
  handler_em excs ev tt w =
    match (if bool_decide (httpMethod ev = Some (py "POST")) then
             match campo_get_ou (path ev) [] with
             | Some c => Ok (endswith c (py "/encurtar"))
             | None => Raise erro_sem_endswith
             end
           else Ok false) with
    | Raise e => (Raise e, w)
    | Ok true => retornar (criar_encurtamento_em excs ev) w
    | Ok false =>
        if bool_decide (httpMethod ev = Some (py "GET"))
           && match campo_get (pathParameters ev) with
              | Some d =>
                  negb (bool_decide (d = ∅))
                  && match d !! py "codigo" with
                     | Some (_ :: _) => true
                     | _ => false
                     end
              | None => false
              end
        then retornar (redirecionar ev) w
        else (Ok resposta_rota, w)
    end.
Proof.
  unfold handler_em. unfold bind at 1.
  destruct (bool_decide (httpMethod ev = Some (py "POST"))).
  - destruct (campo_get_ou (path ev) []) as [c|]; [|reflexivity].
    unfold ret at 1. destruct (endswith c (py "/encurtar")); [reflexivity|].
    match goal with |- context [if ?b then retornar _ else _] => destruct b end;
      reflexivity.
  - unfold ret at 1.
    match goal with |- context [if ?b then retornar _ else _] => destruct b end;
      reflexivity.
Qed.

(** The four ways through [handler]: it raises on a POST with a null
    path, delegates to one of the two routes, or answers 400. *)
Lemma handler_casos excs ev w :
  (caminho_nulo ev ∧ handler_em excs ev tt w = (Raise erro_sem_endswith, w))
  ∨ (rota_criar ev
     ∧ handler_em excs ev tt w = retornar (criar_encurtamento_em excs ev) w)
  ∨ (¬ caminho_nulo ev ∧ ¬ rota_criar ev ∧ rota_resolver ev
     ∧ handler_em excs ev tt w = retornar (redirecionar ev) w)
  ∨ (¬ caminho_nulo ev ∧ ¬ rota_criar ev ∧ ¬ rota_resolver ev
     ∧ handler_em excs ev tt w = (Ok resposta_rota, w)).
Proof.
  assert (bool_decide (httpMethod ev = Some (py "GET"))
          && match campo_get (pathParameters ev) with
             | Some d =>
                 negb (bool_decide (d = ∅))
                 && match d !! py "codigo" with
                    | Some (_ :: _) => true
                    | _ => false
                    end
             | None => false
             end = true ↔ rota_resolver ev) as Hr.
  { unfold rota_resolver. rewrite andb_true_iff, bool_decide_eq_true.
    apply and_iff_compat_l. destruct (pathParameters ev) as [| |d]; cbn [campo_get].
    - split; [discriminate | intros (d & c & ? & _); discriminate].
    - split; [discriminate | intros (d & c & ? & _); discriminate].
    - rewrite andb_true_iff, negb_true_iff, bool_decide_eq_false. split.
      + intros [_ H]. exists d. destruct (d !! py "codigo") as [[|c0 c]|]; try discriminate.
        exists (c0 :: c). repeat split; congruence.
      + intros (d' & c & [= <-] & Hd & Hne). split.
        * intros ->. by rewrite lookup_empty in Hd.
        * rewrite Hd. by destruct c. }
  rewrite (handler_em_eq excs ev w).
  assert (¬ caminho_nulo ev → ¬ rota_criar ev →
          (¬ caminho_nulo ev ∧ ¬ rota_criar ev ∧ rota_resolver ev
           ∧ (if bool_decide (httpMethod ev = Some (py "GET"))
                 && match campo_get (pathParameters ev) with
                    | Some d =>
                        negb (bool_decide (d = ∅))
                        && match d !! py "codigo" with
                           | Some (_ :: _) => true
                           | _ => false
                           end
                    | None => false
                    end
              then retornar (redirecionar ev) w
              else (Ok resposta_rota, w)) = retornar (redirecionar ev) w)
          ∨ (¬ caminho_nulo ev ∧ ¬ rota_criar ev ∧ ¬ rota_resolver ev
             ∧ (if bool_decide (httpMethod ev = Some (py "GET"))
                   && match campo_get (pathParameters ev) with
                      | Some d =>
                          negb (bool_decide (d = ∅))
                          && match d !! py "codigo" with
                             | Some (_ :: _) => true
                             | _ => false
                             end
                      | None => false
                      end
                then retornar (redirecionar ev) w
                else (Ok resposta_rota, w)) = (Ok resposta_rota, w))) as Hresto.
  { intros Hn Hc.
    destruct (bool_decide (httpMethod ev = Some (py "GET")) && _) eqn:Eg.
    - left. split; [exact Hn|]. split; [exact Hc|]. split; [by apply Hr | reflexivity].
    - right. split; [exact Hn|]. split; [exact Hc|]. split; [|reflexivity].
      intros H. apply Hr in H. discriminate H. }
  destruct (bool_decide (httpMethod ev = Some (py "POST"))) eqn:Em.
  - apply bool_decide_eq_true in Em.
    destruct (campo_get_ou (path ev) []) as [c|] eqn:Ec.
    + assert (¬ caminho_nulo ev) as Hn.
      { intros [_ Hp]. rewrite Hp in Ec. discriminate Ec. }
      destruct (endswith c (py "/encurtar")) eqn:Ee.
      * right. left. split; [|reflexivity]. split; [exact Em|].
        apply endswith_spec in Ee as [q ->]. rewrite Ec. by exists q.
      * right. right. apply Hresto; [exact Hn|].
        intros [_ [q Hq]]. rewrite Ec in Hq. injection Hq as ->.
        assert (endswith (q ++ py "/encurtar") (py "/encurtar") = true) as Ht
          by (apply endswith_spec; by exists q).
        rewrite Ht in Ee. discriminate Ee.
    + left. split; [|reflexivity]. split; [exact Em|].
      destruct (path ev); [discriminate Ec | reflexivity | discriminate Ec].
  - apply bool_decide_eq_false in Em. right. right.
    apply Hresto; intros [H _]; exact (Em H).
Qed.

Lemma handler_cresce ev w : cresce w (handler ev tt w).2.
Proof.
  unfold handler.
  destruct (handler_casos boto3_exceptions ev w)
    as [[_ ->] | [[_ ->] | [(_ & _ & _ & ->) | (_ & _ & _ & ->)]]].
  - apply cresce_refl.
  - apply criar_cresce.
  - unfold retornar. cbn [snd].
    destruct (redirecionar_le ev w) as (Ht & Hs & _ & Hf & l & Hl & _).
    repeat split; [by rewrite Ht | done | done | by exists l].
  - apply cresce_refl.
Qed.

Lemma redirecionar_consulta ev w d c :
  pathParameters ev = Valor d → d !! py "codigo" = Some c → c ≠ [] →
  sem_falha w →
  redirecionar ev w =
    (if negb (truthy (url_no_banco w c)) then resposta_nao_encontrado
     else if negb (url_valida (url_no_banco w c)) then resposta_url_corrompida
     else {| statusCode := 301;
             headers := Some [(py "Location", url_no_banco w c)];
             rbody := [] |},
     registrada (GetItem c) w).
Proof.
  intros Hd Hc Hne Hf. unfold redirecionar, exceto_Exception.
  rewrite Hd. unfold bind at 1, lift at 1, campo_item. cbv beta iota.
  unfold bind at 1, ret at 1. rewrite Hc.
  destruct c as [|c0 c]; [congruence|].
  unfold bind, get_item, bind, chamar. rewrite Hf.
  unfold url_no_banco, registrada. cbn [tabela com_chamadas].
  repeat match goal with |- context [if ?b then _ else _] => destruct b end;
    reflexivity.
Qed.

Lemma url_valida_VStr (v : valor) : url_valida v = true → ∃ u, v = VStr u ∧ u ≠ [].
Proof.
  destruct v as [| | | |u| |]; try discriminate. intros H. exists u. split; [done|].
  intros ->. vm_compute in H. discriminate.
Qed.

Lemma url_valida_truthy v : url_valida v = true → truthy v = true.
Proof.
  intros H. apply url_valida_VStr in H as (u & -> & Hu).
  cbn [truthy]. apply negb_true_iff, bool_decide_eq_false. done.
Qed.

(** [criar_encurtamento] when the body does not decode. *)
Lemma criar_indecifravel excs ev w e :
  json_loads (ou (body ev) (py "{}")) = Raise e →
  criar_encurtamento_em excs ev w = (resposta_erro 500 (str_exc e), w).
Proof.
  intros H. unfold criar_encurtamento_em, exceto_Exception, bind, lift.
  by rewrite H.
Qed.

(** ... when the document is no dict. *)
Lemma criar_sem_get excs ev w v e :
  json_loads (ou (body ev) (py "{}")) = Ok v → metodo_get v (py "url") = Raise e →
  criar_encurtamento_em excs ev w = (resposta_erro 500 (str_exc e), w).
Proof.
  intros H1 H2. unfold criar_encurtamento_em, exceto_Exception, bind, lift.
  by rewrite H1, H2.
Qed.

(** ... when the url is absent, empty or invalid. *)
Lemma criar_invalido excs ev w v x :
  json_loads (ou (body ev) (py "{}")) = Ok v → metodo_get v (py "url") = Ok x →
  url_valida x = false →
  criar_encurtamento_em excs ev w = (resposta_url_invalida, w).
Proof.
  intros H1 H2 H3. unfold criar_encurtamento_em, exceto_Exception, bind, lift.
  rewrite H1, H2, H3. cbn [negb]. by rewrite orb_true_r.
Qed.

(** ... when the url is valid: the loop decides. *)
Lemma criar_valido excs ev w v x :
  json_loads (ou (body ev) (py "{}")) = Ok v → metodo_get v (py "url") = Ok x →
  url_valida x = true →
  criar_encurtamento_em excs ev w =
    match tentativas excs 5 x w with
    | (Ok (Some c), w') => (resposta_criado c, w')
    | (Ok None, w') => (resposta_esgotado, w')
    | (Raise e, w') => (resposta_erro 500 (str_exc e), w')
    end.
Proof.
  intros H1 H2 H3. unfold criar_encurtamento_em, exceto_Exception, bind, lift.
  rewrite H1, H2, H3, (url_valida_truthy _ H3). cbn [negb orb].
  by destruct (tentativas excs 5 x w) as [[[c|]|e] w'].
Qed.

(** The table after the loop: one new record under the returned code,
    no change otherwise. *)
Lemma put_item_tabela item w r w' :
  put_item item w = (r, w') →
  match r with
  | Ok _ => ∃ k, item !! py "codigo" = Some (VStr k) ∧ k ≠ []
                 ∧ tabela w !! k = None ∧ tabela w' = <[k := item]> (tabela w)
  | Raise _ => tabela w' = tabela w
  end.
Proof.
  unfold put_item, bind, chamar.
  destruct (falhas w _); [by intros [= <- <-]|].
  destruct (item !! py "codigo") as [[| | | |[|c0 k]| |]|];
    try (by intros [= <- <-]).
  cbn [tabela com_chamadas].
  destruct (tabela w !! (c0 :: k)) eqn:E; [by intros [= <- <-]|].
  unfold gravar. intros [= <- <-]. exists (c0 :: k). by repeat split.
Qed.

Lemma tentativas_tabela excs n u w r w' :
  tentativas excs n u w = (r, w') →
  match r with
  | Ok (Some c) =>
      length c = TAMANHO_CODIGO ∧ tabela w !! c = None
      ∧ tabela w' = <[c := item_novo c u]> (tabela w)
  | _ => tabela w' = tabela w
  end.
Proof.
  revert w. induction n as [|n IH]; intros w; [by intros [= <- <-]|].
  cbn [tentativas]. unfold bind at 1. rewrite gerar_codigo_spec.
  set (w0 := com_proximo _ w). set (c0 := codigo_n w 0).
  unfold tente. unfold bind at 1.
  destruct (put_item (item_novo c0 u) w0) as [[[]|e] w1] eqn:Ep;
    apply put_item_tabela in Ep.
  - unfold ret. intros [= <- <-].
    destruct Ep as (k & Hk & _ & Hn & Ht).
    rewrite item_novo_codigo in Hk. injection Hk as <-.
    split; [apply codigo_em_length | by split].
  - unfold bind at 1, lift.
    destruct (getattr _ _ _) as [cl|a]; [|by intros [= <- <-]].
    destruct (isinstance e cl); [|by intros [= <- <-]].
    destruct e; try (by intros [= <- <-]).
    destruct (str_eqb _ _); [|by intros [= <- <-]].
    intros H. apply IH in H. rewrite Ep in H. exact H.
Qed.

Lemma tamanho_nao_vazio (c : str) : length c = TAMANHO_CODIGO → c ≠ [].
Proof. by intros H ->. Qed.

Lemma json_loads_vazio : ∃ e, json_loads [] = Raise e.
Proof. eexists. vm_compute. reflexivity. Qed.

Lemma ou_presente (b y : str) v : json_loads b = Ok v → ou (Some b) y = b.
Proof.
  destruct b as [|c b]; [|done]. destruct json_loads_vazio as [e He].
  rewrite He. discriminate.
Qed.

(** Round trip, for whatever module [boto3.exceptions] is. *)
Lemma ida_e_volta_em excs ev w b d u resp w' :
  body ev = Some b → json_loads b = Ok (VDict d) → dict_get d (py "url") = VStr u →
  criar_encurtamento_em excs ev w = (resp, w') →
  statusCode resp = 201%Z →
  ∃ c, resp = resposta_criado c
       ∧ tabela w' !! c = Some (item_novo c (VStr u))
       ∧ ∀ ev' d', pathParameters ev' = Valor d' → d' !! py "codigo" = Some c →
                   sem_falha w' →
                   (redirecionar ev' w').1 = resposta_redirecionar u.
Proof.
  intros Hb Hj Hu Hc Hs.
  assert (json_loads (ou (body ev) (py "{}")) = Ok (VDict d)) as Hj'.
  { rewrite Hb. by rewrite (ou_presente _ _ _ Hj). }
  assert (metodo_get (VDict d) (py "url") = Ok (VStr u)) as Hg
      by (cbn [metodo_get]; by rewrite Hu).
  destruct (url_valida (VStr u)) eqn:Hv.
  - rewrite (criar_valido _ _ _ _ _ Hj' Hg Hv) in Hc.
    destruct (tentativas excs 5 (VStr u) w) as [[[c|]|e] w1] eqn:Et;
      injection Hc as <- <-; try discriminate Hs.
    apply tentativas_tabela in Et as (Hl & Hn & Ht).
    exists c. split; [reflexivity|].
    assert (tabela w1 !! c = Some (item_novo c (VStr u))) as Hi
        by (rewrite Ht; apply lookup_insert_eq).
    split; [exact Hi|].
    intros ev' d' Hd' Hc' Hf.
    rewrite (redirecionar_consulta ev' w1 d' c Hd' Hc' (tamanho_nao_vazio _ Hl) Hf).
    assert (url_no_banco w1 c = VStr u) as ->.
    { unfold url_no_banco. by rewrite Hi, item_novo_url. }
    rewrite Hv, (url_valida_truthy _ Hv). reflexivity.
  - rewrite (criar_invalido _ _ _ _ _ Hj' Hg Hv) in Hc.
    injection Hc as <- <-. discriminate Hs.
Qed.

(** ** Collisions *)

(** Under the module as boto3 ships it, a first code that is free is
    written and returned. *)
Lemma criar_primeira_livre ev w v u :
  json_loads (ou (body ev) (py "{}")) = Ok v → metodo_get v (py "url") = Ok u →
  url_valida u = true →
  sem_falha w → tabela w !! codigo_n w 0 = None →
  criar_encurtamento ev w =
    (resposta_criado (codigo_n w 0),
     com_tabela (<[codigo_n w 0 := item_novo (codigo_n w 0) u]> (tabela w))
       (registrada (PutItem (item_novo (codigo_n w 0) u))
          (com_proximo (proximo w + TAMANHO_CODIGO) w))).
Proof.
  intros Hj Hg Hv Hf Hn. unfold criar_encurtamento.
  rewrite (criar_valido _ _ _ _ _ Hj Hg Hv), tentativas_real_S. cbn zeta.
  rewrite put_item_novo; [reflexivity | exact Hf | | exact Hn].
  apply tamanho_nao_vazio, codigo_em_length.
Qed.

(** Under the module as boto3 ships it, whatever the first [put_item]
    raises ends the loop: one call, and the answer carries the
    [AttributeError] of the [except] clause. *)
Lemma criar_primeira_excecao ev w v u e w1 :
  json_loads (ou (body ev) (py "{}")) = Ok v → metodo_get v (py "url") = Ok u →
  url_valida u = true →
  put_item (item_novo (codigo_n w 0) u) (com_proximo (proximo w + TAMANHO_CODIGO) w)
    = (Raise e, w1) →
  criar_encurtamento ev w = (resposta_erro 500 (str_exc erro_sem_ClientError), w1).
Proof.
  intros Hj Hg Hv Hp. unfold criar_encurtamento.
  rewrite (criar_valido _ _ _ _ _ Hj Hg Hv), tentativas_real_S. cbn zeta.
  by rewrite Hp.
Qed.

Lemma criar_colisao_real ev w v u :
  json_loads (ou (body ev) (py "{}")) = Ok v → metodo_get v (py "url") = Ok u →
  url_valida u = true →
  sem_falha w → is_Some (tabela w !! codigo_n w 0) →
  criar_encurtamento ev w =
    (resposta_erro 500 (str_exc erro_sem_ClientError),
     registrada (PutItem (item_novo (codigo_n w 0) u))
       (com_proximo (proximo w + TAMANHO_CODIGO) w)).
Proof.
  intros Hj Hg Hv Hf Hs.
  apply (criar_primeira_excecao ev w v u ConditionalCheckFailed); try assumption.
  apply put_item_colisao; [exact Hf | | exact Hs].
  apply tamanho_nao_vazio, codigo_em_length.
Qed.

Lemma mundo_eq (w w' : Mundo) :
  tabela w = tabela w' → sorteios w = sorteios w' → proximo w = proximo w' →
  falhas w = falhas w' → chamadas w = chamadas w' → w = w'.
Proof. destruct w, w'; simpl. by intros -> -> -> -> ->. Qed.

Lemma str_eqb_refl (s : str) : str_eqb s s = true.
Proof. by apply str_eqb_eq. Qed.

Lemma tentativas_com_colisoes n m u w :
  (∀ i, i < n → is_Some (tabela w !! codigo_n w i)) →
  (∀ i, i < n → falhas w (length (chamadas w) + i) = None) →
  tentativas boto3_exceptions_com_ClientError (n + m) u w
  = tentativas boto3_exceptions_com_ClientError m u (apos_colisoes n u w).
Proof.
  revert w. induction n as [|n IH]; intros w Hc Hf.
  - cbn [Nat.add]. f_equal. unfold apos_colisoes.
    apply mundo_eq; cbn [tabela sorteios proximo falhas chamadas com_chamadas com_proximo seq map];
      [reflexivity | reflexivity | lia | reflexivity | by rewrite app_nil_r].
  - cbn [Nat.add]. rewrite tentativas_com_S. cbn zeta.
    rewrite put_item_colisao; first last.
    + apply (Hc 0). lia.
    + apply tamanho_nao_vazio, codigo_em_length.
    + unfold sem_falha. cbn [falhas chamadas com_proximo].
      rewrite <- (Hf 0) by lia. f_equal. lia.
    + unfold ConditionalCheckFailed. cbv beta iota. rewrite str_eqb_refl.
      rewrite IH.
      * f_equal. unfold apos_colisoes, registrada.
        apply mundo_eq;
          cbn [tabela sorteios proximo falhas chamadas com_chamadas com_proximo];
          [reflexivity | reflexivity | unfold TAMANHO_CODIGO; lia | reflexivity |].
        rewrite <- app_assoc. apply (f_equal (app (chamadas w))).
        rewrite <- cons_seq, <- seq_shift, map_cons, map_map.
        apply (f_equal2 cons).
        -- unfold codigo_n. by rewrite Nat.mul_0_r, !Nat.add_0_r.
        -- apply map_ext. intros i. unfold codigo_n.
           cbn [sorteios proximo com_chamadas com_proximo].
           replace (proximo w + TAMANHO_CODIGO + TAMANHO_CODIGO * i)
             with (proximo w + TAMANHO_CODIGO * S i)
             by (unfold TAMANHO_CODIGO; lia).
           reflexivity.
      * intros i Hi. unfold registrada. cbn [tabela com_chamadas com_proximo].
        specialize (Hc (S i) ltac:(lia)). unfold codigo_n in Hc |- *.
        cbn [sorteios proximo com_chamadas com_proximo].
        replace (proximo w + TAMANHO_CODIGO + TAMANHO_CODIGO * i)
          with (proximo w + TAMANHO_CODIGO * S i)
          by (unfold TAMANHO_CODIGO; lia).
        exact Hc.
      * intros i Hi. unfold registrada.
        cbn [falhas chamadas com_chamadas com_proximo]. rewrite length_app.
        cbn [length]. rewrite <- (Hf (S i)) by lia. f_equal. lia.
Qed.

(** Exhaustion as the loop is written, once [ClientError] resolves: five
    codes that all exist give five conditional writes, none of which
    succeeds, and the answer 500. *)
Lemma esgotamento_com_ClientError ev w v u :
  json_loads (ou (body ev) (py "{}")) = Ok v → metodo_get v (py "url") = Ok u →
  url_valida u = true →
  (∀ i, i < 5 → is_Some (tabela w !! codigo_n w i)) →
  (∀ i, i < 5 → falhas w (length (chamadas w) + i) = None) →
  criar_encurtamento_pretendido ev w = (resposta_esgotado, apos_colisoes 5 u w)
  ∧ statusCode resposta_esgotado = 500%Z
  ∧ tabela (apos_colisoes 5 u w) = tabela w
  ∧ chamadas (apos_colisoes 5 u w)
    = chamadas w ++ map (λ i, PutItem (item_novo (codigo_n w i) u)) (seq 0 5).
Proof.
  intros Hj Hg Hv Hc Hf. unfold criar_encurtamento_pretendido.
  rewrite (criar_valido _ _ _ _ _ Hj Hg Hv).
  pose proof (tentativas_com_colisoes 5 0 u w Hc Hf) as Ht.
  change (5 + 0) with 5 in Ht. rewrite Ht.
  cbn [tentativas ret].
  split; [reflexivity | split; [reflexivity | split; reflexivity]].
Qed.

(** Retry as the loop is written, once [ClientError] resolves: after [n]
    codes that exist, a free one is written at attempt [n + 1]. *)
Lemma repeticao_com_ClientError ev w v u n :
  json_loads (ou (body ev) (py "{}")) = Ok v → metodo_get v (py "url") = Ok u →
  url_valida u = true →
  n < 5 →
  (∀ i, i < n → is_Some (tabela w !! codigo_n w i)) →
  tabela w !! codigo_n w n = None →
  (∀ i, i ≤ n → falhas w (length (chamadas w) + i) = None) →
  ∃ w',
    criar_encurtamento_pretendido ev w = (resposta_criado (codigo_n w n), w')
    ∧ statusCode (resposta_criado (codigo_n w n)) = 201%Z
    ∧ tabela w' = <[codigo_n w n := item_novo (codigo_n w n) u]> (tabela w)
    ∧ chamadas w'
      = chamadas w ++ map (λ i, PutItem (item_novo (codigo_n w i) u)) (seq 0 (S n)).
Proof.
  intros Hj Hg Hv Hn Hc Hl Hf. unfold criar_encurtamento_pretendido.
  rewrite (criar_valido _ _ _ _ _ Hj Hg Hv).
  replace 5 with (n + S (4 - n)) by lia.
  rewrite (tentativas_com_colisoes n (S (4 - n)) u w Hc) by (intros i Hi; apply Hf; lia).
  rewrite tentativas_com_S. cbn zeta.
  assert (codigo_n (apos_colisoes n u w) 0 = codigo_n w n) as ->.
  { unfold codigo_n, apos_colisoes.
    cbn [sorteios proximo com_chamadas com_proximo].
    replace (proximo w + TAMANHO_CODIGO * n + TAMANHO_CODIGO * 0)
      with (proximo w + TAMANHO_CODIGO * n) by lia.
    reflexivity. }
  rewrite put_item_novo; first last.
  - exact Hl.
  - apply tamanho_nao_vazio, codigo_em_length.
  - unfold sem_falha, apos_colisoes.
    cbn [falhas chamadas com_chamadas com_proximo].
    rewrite length_app, length_map, length_seq. apply Hf. lia.
  - eexists. split; [reflexivity|]. split; [reflexivity|]. split; [reflexivity|].
    unfold registrada, apos_colisoes.
    cbn [chamadas com_tabela com_chamadas com_proximo].
    rewrite <- app_assoc. f_equal. by rewrite seq_S, map_app.
Qed.

(** The same two inputs under the module with [ClientError]. *)
Example esgotamento_pretendido :
  let r := criar_encurtamento_pretendido (evento_post exemplo_corpo) mundo_esgotado in
  r.1 = resposta_esgotado ∧ length (chamadas r.2) = 5
  ∧ tabela r.2 = tabela mundo_esgotado.
Proof. cbv zeta. repeat split; vm_compute; reflexivity. Qed.

Example repeticao_pretendida :
  let r := criar_encurtamento_pretendido (evento_post exemplo_corpo) mundo_uma_colisao in
  r.1 = resposta_criado (py "bbbbbb") ∧ length (chamadas r.2) = 2
  ∧ tabela r.2 !! py "bbbbbb" = Some (item_novo (py "bbbbbb") (VStr exemplo_url)).
Proof. cbv zeta. repeat split; vm_compute; reflexivity. Qed.

Lemma corpo_decodificado (b : str) (u : str) :
  json_loads b = Ok (VDict [(py "url", VStr u)]) →
  ∃ v, json_loads (ou (body (evento_post b)) (py "{}")) = Ok v
       ∧ metodo_get v (py "url") = Ok (VStr u).
Proof.
  intros H. exists (VDict [(py "url", VStr u)]). split.
  - cbn [body evento_post]. by rewrite (ou_presente _ _ _ H).
  - reflexivity.
Qed.

(** A record [criar_encurtamento] adds holds a url that passed
    [url_valida]. *)
Lemma criar_grava_valida excs ev w k i :
  tabela w !! k = None → tabela (criar_encurtamento_em excs ev w).2 !! k = Some i →
  length k = TAMANHO_CODIGO
  ∧ ∃ u, i = item_novo k (VStr u) ∧ url_valida (VStr u) = true.
Proof.
  intros Hn Hs. unfold criar_encurtamento_em, exceto_Exception, bind, lift in Hs.
  destruct (json_loads _) as [v|e]; [|cbn in Hs; congruence].
  destruct (metodo_get v _) as [x|e]; [|cbn in Hs; congruence].
  destruct (url_valida x) eqn:Hv; [|rewrite orb_true_r in Hs; cbn in Hs; congruence].
  rewrite (url_valida_truthy _ Hv) in Hs. cbn [negb orb] in Hs.
  destruct (tentativas excs 5 x w) as [r w1] eqn:Et.
  apply tentativas_tabela in Et.
  destruct r as [[c|]|e]; cbn [snd ret] in Hs; try (rewrite Et in Hs; congruence).
  destruct Et as (Hl & _ & Ht). rewrite Ht in Hs.
  destruct (decide (c = k)) as [->|Hne].
  - rewrite lookup_insert_eq in Hs. injection Hs as <-. split; [done|].
    destruct (url_valida_VStr _ Hv) as (u & -> & _). by exists u.
  - rewrite lookup_insert_ne in Hs by done. congruence.
Qed.

(** ** The claims of the specification *)

(** C1. Round trip: if the body decodes to a dict whose [url] is the text
    [u] and [criar_encurtamento] answers 201, the answer carries a code
    [c] such that [redirecionar] of [c] in the resulting world (the table
    answering) gives status 301, the header Location equal to [u] and an
    empty body. *)
Theorem C1_ida_e_volta (ev : Evento) (w : Mundo) (b : str) (d : list (str * valor))
    (u : str) (resp : Resposta) (w' : Mundo) :
  body ev = Some b → json_loads b = Ok (VDict d) → dict_get d (py "url") = VStr u →
  criar_encurtamento ev w = (resp, w') →
  statusCode resp = 201%Z →
  ∃ c, resp = resposta_criado c
       ∧ ∀ ev' d', pathParameters ev' = Valor d' → d' !! py "codigo" = Some c →
                   sem_falha w' →
                   (redirecionar ev' w').1 = resposta_redirecionar u
                   ∧ statusCode (redirecionar ev' w').1 = 301%Z
                   ∧ headers (redirecionar ev' w').1 = Some [(py "Location", VStr u)]
                   ∧ rbody (redirecionar ev' w').1 = [].
Proof.
  intros Hb Hj Hu Hc Hs.
  destruct (ida_e_volta_em _ _ _ _ _ _ _ _ Hb Hj Hu Hc Hs) as (c & Hr & _ & H).
  exists c. split; [exact Hr|]. intros ev' d' Hd' Hc' Hf.
  rewrite (H ev' d' Hd' Hc' Hf). by repeat split.
Qed.

Lemma C1_witness :
  ∃ c, (criar_encurtamento (evento_post exemplo_corpo) mundo_vazio).1 = resposta_criado c
       ∧ ∀ ev' d', pathParameters ev' = Valor d' → d' !! py "codigo" = Some c →
                   sem_falha (criar_encurtamento (evento_post exemplo_corpo) mundo_vazio).2 →
                   (redirecionar ev' (criar_encurtamento (evento_post exemplo_corpo) mundo_vazio).2).1
                     = resposta_redirecionar exemplo_url
                   ∧ statusCode (redirecionar ev' (criar_encurtamento (evento_post exemplo_corpo) mundo_vazio).2).1 = 301%Z
                   ∧ headers (redirecionar ev' (criar_encurtamento (evento_post exemplo_corpo) mundo_vazio).2).1
                     = Some [(py "Location", VStr exemplo_url)]
                   ∧ rbody (redirecionar ev' (criar_encurtamento (evento_post exemplo_corpo) mundo_vazio).2).1 = [].
Proof.
  apply (C1_ida_e_volta (evento_post exemplo_corpo) mundo_vazio exemplo_corpo
           [(py "url", VStr exemplo_url)] exemplo_url).
  - reflexivity.
  - vm_compute. reflexivity.
  - vm_compute. reflexivity.
  - vm_compute. reflexivity.
  - vm_compute. reflexivity.
Defined.

(** The claim as stated fails: a body that is no JSON gets 500. *)
Lemma C2_counterexample :
  json_loads (py "not json")
    = Raise (JSONDecodeError (py "Expecting value") (py "not json") 0)
  ∧ statusCode (criar_encurtamento (evento_post (py "not json")) mundo_vazio).1 = 500%Z.
Proof. split; vm_compute; reflexivity. Qed.

(** C2, amended. A body that is present, non-empty and not decodable as
    JSON is not treated as a missing url: the exception of [json.loads]
    reaches the outer handler and the answer is 500 with its message, the
    world untouched.  Only a missing or empty body is read as the empty
    dict and answered 400. *)
Theorem C2_corpo_indecifravel (ev : Evento) (w : Mundo) (b : str) (e : Excecao) :
  body ev = Some b → b ≠ [] → json_loads b = Raise e →
  (criar_encurtamento ev w = (resposta_erro 500 (str_exc e), w)
   ∧ statusCode (criar_encurtamento ev w).1 = 500%Z)
  ∧ ∀ m p pp,
      criar_encurtamento
        {| httpMethod := m; path := p; pathParameters := pp; body := None |} w
        = (resposta_url_invalida, w)
      ∧ criar_encurtamento
          {| httpMethod := m; path := p; pathParameters := pp; body := Some [] |} w
        = (resposta_url_invalida, w)
      ∧ statusCode resposta_url_invalida = 400%Z.
Proof.
  intros Hb Hne He. split.
  - assert (criar_encurtamento ev w = (resposta_erro 500 (str_exc e), w)) as ->; [|done].
    apply criar_indecifravel. rewrite Hb. destruct b; [congruence | exact He].
  - intros m p pp. unfold criar_encurtamento.
    split; [|split; [|reflexivity]].
    + apply (criar_invalido boto3_exceptions _ w (VDict []) VNone);
        [vm_compute; reflexivity | reflexivity | reflexivity].
    + apply (criar_invalido boto3_exceptions _ w (VDict []) VNone);
        [vm_compute; reflexivity | reflexivity | reflexivity].
Qed.

Lemma C2_witness :
  (criar_encurtamento (evento_post (pyq "{'url': ")) mundo_vazio
    = (resposta_erro 500
         (str_exc (JSONDecodeError (py "Expecting value") (pyq "{'url': ") 8)),
       mundo_vazio)
   ∧ statusCode (criar_encurtamento (evento_post (pyq "{'url': ")) mundo_vazio).1 = 500%Z).
Proof.
  apply (C2_corpo_indecifravel (evento_post (pyq "{'url': ")) mundo_vazio
           (pyq "{'url': ")).
  - reflexivity.
  - vm_compute. discriminate.
  - vm_compute. reflexivity.
Defined.

(** C3, at the failing input.  The table holds the code every attempt
    would generate, so all five codes collide.  The answer is 500, but
    after one conditional write, not five: the clause
    [except boto3.exceptions.ClientError] raises [AttributeError] when it
    is evaluated, and the outer handler turns that into the answer. *)
Theorem C3_esgotamento :
  let r := criar_encurtamento (evento_post exemplo_corpo) mundo_esgotado in
  Forall (λ i, is_Some (tabela mundo_esgotado !! codigo_n mundo_esgotado i))
         [0; 1; 2; 3; 4]
  ∧ r.1 = resposta_erro 500 (py "module 'boto3.exceptions' has no attribute 'ClientError'")
  ∧ statusCode r.1 = 500%Z
  ∧ chamadas r.2 = [PutItem (item_novo (py "aaaaaa") (VStr exemplo_url))]
  ∧ tabela r.2 = tabela mundo_esgotado.
Proof.
  cbv zeta. split.
  - repeat constructor;
      exists (item_novo (py "aaaaaa") (VStr (py "http://old.example/")));
      vm_compute; reflexivity.
  - repeat split; vm_compute; reflexivity.
Qed.

(** C4, at the failing input.  The first code exists and the second is
    free (N = 1).  The second attempt is never made: the answer is 500
    after one conditional write, and nothing is written. *)
Theorem C4_repeticao :
  let r := criar_encurtamento (evento_post exemplo_corpo) mundo_uma_colisao in
  is_Some (tabela mundo_uma_colisao !! codigo_n mundo_uma_colisao 0)
  ∧ tabela mundo_uma_colisao !! codigo_n mundo_uma_colisao 1 = None
  ∧ r.1 = resposta_erro 500 (py "module 'boto3.exceptions' has no attribute 'ClientError'")
  ∧ statusCode r.1 = 500%Z
  ∧ chamadas r.2 = [PutItem (item_novo (py "aaaaaa") (VStr exemplo_url))]
  ∧ tabela r.2 = tabela mundo_uma_colisao.
Proof.
  cbv zeta. split.
  - exists (item_novo (py "aaaaaa") (VStr (py "http://old.example/"))).
    vm_compute. reflexivity.
  - repeat split; vm_compute; reflexivity.
Qed.

(** C5. [url_valida] holds of a text exactly when [urlparse] returns a
    result whose scheme is [http] or [https] and whose netloc is not
    empty; a [ValueError] of the parser gives [False].  Hence the answer
    400 for the bodies with [not-a-url], [ftp://host/x] and [https://],
    and 201 for [https://example.com] when the table answers and the first
    generated code is free. *)
Theorem C5_url_valida :
  (∀ s, url_valida (VStr s) = true
        ↔ ∃ p, urlparse s = Some p
               ∧ (scheme p = py "http" ∨ scheme p = py "https") ∧ netloc p ≠ [])
  ∧ (∀ s, urlparse s = None → url_valida (VStr s) = false)
  ∧ (∀ w, statusCode (criar_encurtamento (evento_post (pyq "{'url': 'not-a-url'}")) w).1
          = 400%Z)
  ∧ (∀ w, statusCode (criar_encurtamento (evento_post (pyq "{'url': 'ftp://host/x'}")) w).1
          = 400%Z)
  ∧ (∀ w, statusCode (criar_encurtamento (evento_post (pyq "{'url': 'https://'}")) w).1
          = 400%Z)
  ∧ (∀ w, sem_falha w → tabela w !! codigo_n w 0 = None →
          statusCode
            (criar_encurtamento (evento_post (pyq "{'url': 'https://example.com'}")) w).1
          = 201%Z).
Proof.
  split; [|split].
  - intros s. cbn [url_valida]. destruct (urlparse s) as [p|].
    + rewrite andb_true_iff, orb_true_iff, negb_true_iff, !str_eqb_eq, str_eqb_neq.
      split.
      * intros [H1 H2]. by exists p.
      * intros (p' & [= <-] & H1 & H2). by split.
    + split; [discriminate | intros (p & H & _); discriminate].
  - intros s H. cbn [url_valida]. by rewrite H.
  - assert (∀ b u, json_loads b = Ok (VDict [(py "url", VStr u)]) →
                   url_valida (VStr u) = false →
                   ∀ w, statusCode (criar_encurtamento (evento_post b) w).1 = 400%Z) as Hinv.
    { intros b u Hb Hu w. destruct (corpo_decodificado b u Hb) as (v & Hj & Hg).
      unfold criar_encurtamento. by rewrite (criar_invalido _ _ _ _ _ Hj Hg Hu). }
    split; [|split; [|split]].
    + apply (Hinv _ (py "not-a-url")); vm_compute; reflexivity.
    + apply (Hinv _ (py "ftp://host/x")); vm_compute; reflexivity.
    + apply (Hinv _ (py "https://")); vm_compute; reflexivity.
    + intros w Hf Hn.
      destruct (corpo_decodificado (pyq "{'url': 'https://example.com'}")
                  (py "https://example.com")) as (v & Hj & Hg);
        [vm_compute; reflexivity|].
      rewrite (criar_primeira_livre _ _ _ _ Hj Hg); [reflexivity | | exact Hf | exact Hn].
      vm_compute. reflexivity.
Qed.

Lemma C5_witness :
  statusCode
    (criar_encurtamento (evento_post (pyq "{'url': 'https://example.com'}")) mundo_vazio).1
  = 201%Z.
Proof.
  apply (proj2 (proj2 (proj2 (proj2 (proj2 C5_url_valida))))).
  - vm_compute. reflexivity.
  - vm_compute. reflexivity.
Defined.

(** C6. Routing, for every event but a POST whose path is null (the
    dispatcher is specified for a path that is a string; on null
    [caminho.endswith] raises): the handler delegates to
    [criar_encurtamento] when the method is POST and the path ends with
    [/encurtar]; otherwise to [redirecionar] when the method is GET and the
    path parameters hold a non-empty [codigo]; in every other case it
    answers 400 and leaves the world, trace of store calls included, as it
    found it.  A missing path is read as the empty text. *)
Theorem C6_roteamento (ev : Evento) (w : Mundo) :
  let cria :=
    httpMethod ev = Some (py "POST")
    ∧ ∃ q, campo_get_ou (path ev) [] = Some (q ++ py "/encurtar") in
  let resolve :=
    httpMethod ev = Some (py "GET")
    ∧ ∃ d c, pathParameters ev = Valor d ∧ d !! py "codigo" = Some c ∧ c ≠ [] in
  ¬ (httpMethod ev = Some (py "POST") ∧ path ev = Nulo) →
  (cria → handler ev tt w = retornar (criar_encurtamento ev) w)
  ∧ (¬ cria → resolve → handler ev tt w = retornar (redirecionar ev) w)
  ∧ (¬ cria → ¬ resolve → handler ev tt w = (Ok resposta_rota, w)).
Proof.
  intros cria resolve Hnulo. unfold handler, criar_encurtamento.
  destruct (handler_casos boto3_exceptions ev w)
    as [[Hn _] | [[Hc ->] | [(_ & Hc & Hr & ->) | (_ & Hc & Hr & ->)]]].
  - destruct (Hnulo Hn).
  - split; [reflexivity|]. split; intros Hc'; destruct (Hc' Hc).
  - split; [intros Hc'; destruct (Hc Hc')|].
    split; [reflexivity | intros _ Hr'; destruct (Hr' Hr)].
  - split; [intros Hc'; destruct (Hc Hc')|].
    split; [intros _ Hr'; destruct (Hr Hr') | reflexivity].
Qed.

Lemma C6_witness :
  handler (evento_post exemplo_corpo) tt mundo_vazio
    = retornar (criar_encurtamento (evento_post exemplo_corpo)) mundo_vazio
  ∧ handler (evento_get (py "abc123")) tt mundo_vazio
    = retornar (redirecionar (evento_get (py "abc123"))) mundo_vazio
  ∧ handler evento_delete tt mundo_vazio = (Ok resposta_rota, mundo_vazio).
Proof.
  split; [|split].
  - apply (proj1 (C6_roteamento (evento_post exemplo_corpo) mundo_vazio
                    ltac:(intros [_ H]; discriminate H))).
    split; [reflexivity | exists []; vm_compute; reflexivity].
  - apply (proj1 (proj2 (C6_roteamento (evento_get (py "abc123")) mundo_vazio
                           ltac:(intros [_ H]; discriminate H)))).
    + intros [H _]. vm_compute in H. discriminate.
    + split; [reflexivity|].
      exists {[ py "codigo" := py "abc123" ]}, (py "abc123").
      split; [reflexivity | split; [vm_compute; reflexivity | vm_compute; discriminate]].
  - apply (proj2 (proj2 (C6_roteamento evento_delete mundo_vazio
                           ltac:(intros [_ H]; discriminate H)))).
    + intros [H _]. vm_compute in H. discriminate.
    + intros [H _]. vm_compute in H. discriminate.
Defined.

(** C7. Not found: for a code [c] (non-empty: an empty one is answered 400
    before any lookup) and a table that answers, if the table holds no
    record under [c], or the record has no [url_original], or the table is
    empty, [redirecionar] answers 404. *)
Theorem C7_codigo_desconhecido (ev : Evento) (w : Mundo) (d : gmap str str) (c : str) :
  pathParameters ev = Valor d → d !! py "codigo" = Some c → c ≠ [] →
  sem_falha w →
  (tabela w !! c = None
   ∨ (∃ i, tabela w !! c = Some i ∧ i !! py "url_original" = None)
   ∨ tabela w = ∅) →
  (redirecionar ev w).1 = resposta_nao_encontrado
  ∧ statusCode (redirecionar ev w).1 = 404%Z.
Proof.
  intros Hd Hc Hne Hf Hcase.
  rewrite (redirecionar_consulta ev w d c) by done.
  assert (url_no_banco w c = VNone) as ->.
  { unfold url_no_banco. destruct Hcase as [H|[(i & H & Hi)|H]].
    - by rewrite H.
    - by rewrite H, Hi.
    - by rewrite H, lookup_empty. }
  split; reflexivity.
Qed.

Lemma C7_witness :
  (redirecionar (evento_get (py "zzzzzz")) mundo_vazio).1 = resposta_nao_encontrado
  ∧ statusCode (redirecionar (evento_get (py "zzzzzz")) mundo_vazio).1 = 404%Z.
Proof.
  apply (C7_codigo_desconhecido (evento_get (py "zzzzzz")) mundo_vazio
           {[ py "codigo" := py "zzzzzz" ]} (py "zzzzzz")).
  - reflexivity.
  - vm_compute. reflexivity.
  - vm_compute. discriminate.
  - vm_compute. reflexivity.
  - right. right. reflexivity.
Defined.

(** C8. Immutability and frame: [redirecionar] writes nothing (the table
    is the same afterwards and the calls it adds to the trace are all
    [GetItem]); and a record that is in the table before
    [criar_encurtamento], or before the [handler], is there unchanged
    afterwards, so a creation only ever adds a record under a key that
    held none. *)
Theorem C8_registros_imutaveis (ev : Evento) (w : Mundo) (k : str) (item : Item) :
  tabela w !! k = Some item →
  (tabela (redirecionar ev w).2 = tabela w
   ∧ ∃ l, chamadas (redirecionar ev w).2 = chamadas w ++ l
          ∧ Forall (λ c, ∃ c', c = GetItem c') l)
  ∧ tabela (criar_encurtamento ev w).2 !! k = Some item
  ∧ tabela (handler ev tt w).2 !! k = Some item.
Proof.
  intros Hk. split; [|split].
  - destruct (redirecionar_le ev w) as (Ht & _ & _ & _ & Hl). by split.
  - destruct (criar_cresce boto3_exceptions ev w) as (Ht & _).
    eapply lookup_weaken; eauto.
  - destruct (handler_cresce ev w) as (Ht & _).
    eapply lookup_weaken; eauto.
Qed.

Lemma C8_witness :
  tabela (criar_encurtamento (evento_post exemplo_corpo) mundo_esgotado).2
    !! py "aaaaaa" = Some (item_novo (py "aaaaaa") (VStr (py "http://old.example/"))).
Proof.
  apply (C8_registros_imutaveis (evento_post exemplo_corpo) mundo_esgotado
           (py "aaaaaa") (item_novo (py "aaaaaa") (VStr (py "http://old.example/")))).
  vm_compute. reflexivity.
Defined.

(** C9. Defensive check: a stored [url_original] that is a non-empty text
    failing [url_valida] makes [redirecionar] answer 500, not a redirect.
    The branch is not reached for a record [criar_encurtamento] wrote:
    such a record holds a url that passed [url_valida], and its code is
    answered 301. *)
Theorem C9_verificacao_defensiva (ev : Evento) (w : Mundo) (d : gmap str str)
    (c : str) (i : Item) (u : str) :
  pathParameters ev = Valor d → d !! py "codigo" = Some c → c ≠ [] →
  sem_falha w →
  tabela w !! c = Some i → i !! py "url_original" = Some (VStr u) → u ≠ [] →
  url_valida (VStr u) = false →
  ((redirecionar ev w).1 = resposta_url_corrompida
   ∧ statusCode (redirecionar ev w).1 = 500%Z)
  ∧ ∀ ev0 w0 k i0,
      tabela w0 !! k = None →
      tabela (criar_encurtamento ev0 w0).2 !! k = Some i0 →
      (∃ u0, i0 !! py "url_original" = Some (VStr u0) ∧ url_valida (VStr u0) = true)
      ∧ ∀ ev1 d1, pathParameters ev1 = Valor d1 → d1 !! py "codigo" = Some k →
                  sem_falha (criar_encurtamento ev0 w0).2 →
                  statusCode (redirecionar ev1 (criar_encurtamento ev0 w0).2).1 = 301%Z.
Proof.
  intros Hd Hc Hne Hf Hi Hu Hu0 Hv. split.
  - rewrite (redirecionar_consulta ev w d c) by done.
    assert (url_no_banco w c = VStr u) as ->.
    { unfold url_no_banco. by rewrite Hi, Hu. }
    rewrite Hv. cbn [truthy]. apply str_eqb_neq in Hu0. rewrite Hu0. by split.
  - intros ev0 w0 k i0 Hn Hs.
    destruct (criar_grava_valida _ _ _ _ _ Hn Hs) as (Hl & u0 & -> & Hv0).
    split; [exists u0; split; [apply item_novo_url | exact Hv0]|].
    intros ev1 d1 Hd1 Hc1 Hf1.
    rewrite (redirecionar_consulta ev1 _ d1 k Hd1 Hc1 (tamanho_nao_vazio _ Hl) Hf1).
    assert (url_no_banco (criar_encurtamento ev0 w0).2 k = VStr u0) as ->.
    { unfold url_no_banco. by rewrite Hs, item_novo_url. }
    by rewrite Hv0, (url_valida_truthy _ Hv0).
Qed.

Lemma C9_witness :
  (redirecionar (evento_get (py "abc123")) mundo_url_ftp).1 = resposta_url_corrompida
  ∧ statusCode (redirecionar (evento_get (py "abc123")) mundo_url_ftp).1 = 500%Z.
Proof.
  apply (C9_verificacao_defensiva (evento_get (py "abc123")) mundo_url_ftp
           {[ py "codigo" := py "abc123" ]} (py "abc123")
           (item_novo (py "abc123") (VStr (py "ftp://host/x"))) (py "ftp://host/x")).
  - reflexivity.
  - vm_compute. reflexivity.
  - vm_compute. discriminate.
  - vm_compute. reflexivity.
  - vm_compute. reflexivity.
  - vm_compute. reflexivity.
  - vm_compute. discriminate.
  - vm_compute. reflexivity.
Defined.

(** C10. A record whose [url_original] is present but is the empty string
    is answered with the 404 of an unknown code, not with the 500 of the
    consistency check: the truth test does not tell an empty url from a
    missing one. *)
Theorem C10_url_vazia (ev : Evento) (w : Mundo) (d : gmap str str) (c : str) (i : Item) :
  pathParameters ev = Valor d → d !! py "codigo" = Some c → c ≠ [] →
  sem_falha w →
  tabela w !! c = Some i → i !! py "url_original" = Some (VStr []) →
  (redirecionar ev w).1 = resposta_nao_encontrado
  ∧ statusCode (redirecionar ev w).1 = 404%Z
  ∧ (redirecionar ev w).1 ≠ resposta_url_corrompida.
Proof.
  intros Hd Hc Hne Hf Hi Hu.
  rewrite (redirecionar_consulta ev w d c) by done.
  assert (url_no_banco w c = VStr []) as ->.
  { unfold url_no_banco. by rewrite Hi, Hu. }
  cbn [truthy negb fst]. split; [reflexivity | split; [reflexivity|]].
  intros H. apply (f_equal statusCode) in H. discriminate.
Qed.

Lemma C10_witness :
  (redirecionar (evento_get (py "abc123")) mundo_url_vazia).1 = resposta_nao_encontrado
  ∧ statusCode (redirecionar (evento_get (py "abc123")) mundo_url_vazia).1 = 404%Z
  ∧ (redirecionar (evento_get (py "abc123")) mundo_url_vazia).1 ≠ resposta_url_corrompida.
Proof.
  apply (C10_url_vazia (evento_get (py "abc123")) mundo_url_vazia
           {[ py "codigo" := py "abc123" ]} (py "abc123")
           (item_novo (py "abc123") (VStr []))).
  - reflexivity.
  - vm_compute. reflexivity.
  - vm_compute. discriminate.
  - vm_compute. reflexivity.
  - vm_compute. reflexivity.
  - vm_compute. reflexivity.
Defined.

(** ** Further properties of the handler *)

(** X1. [gerar_codigo] never raises and touches neither table nor trace:
    it consumes six draws and returns six characters, each a letter or a
    digit. *)
Theorem X1_gerar_codigo (w : Mundo) :
  ∃ c, gerar_codigo w = (Ok c, com_proximo (proximo w + TAMANHO_CODIGO) w)
       ∧ length c = TAMANHO_CODIGO
       ∧ Forall (λ x, alfanumerico x = true) c.
Proof.
  exists (codigo_n w 0). split; [apply gerar_codigo_spec|].
  split; [apply codigo_em_length | apply codigo_em_alfabeto].
Qed.

(** X2. A body that [json.loads] decodes to something other than an object
    (a list, a number, a string, a boolean, null) has no [get]: the answer
    is 500 with the text of the [AttributeError], and the world is
    untouched.  A body the decoder does not decode, be it for its syntax,
    for the depth of its nesting or for the length of an integer in it,
    is outside this statement: there the answer carries the exception of
    the decoder. *)
Theorem X2_corpo_nao_objeto (ev : Evento) (w : Mundo) (b : str) (v : valor) :
  body ev = Some b → json_loads b = Ok v → (∀ d, v ≠ VDict d) →
  criar_encurtamento ev w
  = (resposta_erro 500
       (py "'" ++ nome_tipo v ++ py "' object has no attribute 'get'"), w)
  ∧ statusCode (criar_encurtamento ev w).1 = 500%Z.
Proof.
  intros Hb Hj Hv.
  assert (criar_encurtamento ev w
          = (resposta_erro 500
               (py "'" ++ nome_tipo v ++ py "' object has no attribute 'get'"), w)) as ->;
    [|split; reflexivity].
  unfold criar_encurtamento.
  apply (criar_sem_get boto3_exceptions ev w v (sem_atributo (nome_tipo v) (py "get"))).
  - rewrite Hb. rewrite (ou_presente b (py "{}") v Hj). exact Hj.
  - destruct v as [| | | | | |d]; try reflexivity. destruct (Hv d eq_refl).
Qed.

Lemma X2_witness :
  criar_encurtamento (evento_post (py "[1]")) mundo_vazio
  = (resposta_erro 500
       (py "'" ++ nome_tipo (VList [VInt 1]) ++ py "' object has no attribute 'get'"),
     mundo_vazio)
  ∧ statusCode (criar_encurtamento (evento_post (py "[1]")) mundo_vazio).1 = 500%Z.
Proof.
  apply (X2_corpo_nao_objeto (evento_post (py "[1]")) mundo_vazio (py "[1]")
           (VList [VInt 1])).
  - reflexivity.
  - vm_compute. reflexivity.
  - intros d. discriminate.
Defined.

(** X3. A body that [json.loads] decodes to an object whose [url] is absent
    or is no string (null, a number, a boolean, a list, an object) is
    answered 400, like an invalid url, and the world is untouched: no
    draw, no call on the table.  A body the decoder does not decode, be it
    for its syntax, for the depth of its nesting or for the length of an
    integer in it, is outside this statement. *)
Theorem X3_url_nao_texto (ev : Evento) (w : Mundo) (b : str) (d : list (str * valor)) :
  body ev = Some b → json_loads b = Ok (VDict d) →
  (∀ u, dict_get d (py "url") ≠ VStr u) →
  criar_encurtamento ev w = (resposta_url_invalida, w)
  ∧ statusCode (criar_encurtamento ev w).1 = 400%Z.
Proof.
  intros Hb Hj Hu.
  assert (criar_encurtamento ev w = (resposta_url_invalida, w)) as ->;
    [|split; reflexivity].
  unfold criar_encurtamento.
  apply (criar_invalido boto3_exceptions ev w (VDict d) (dict_get d (py "url"))).
  - rewrite Hb. rewrite (ou_presente b (py "{}") _ Hj). exact Hj.
  - reflexivity.
  - destruct (dict_get d (py "url")) as [| | | |u| |] eqn:E; try reflexivity.
    destruct (Hu u eq_refl).
Qed.

Lemma X3_witness :
  criar_encurtamento (evento_post (pyq "{'url': 123}")) mundo_vazio
  = (resposta_url_invalida, mundo_vazio)
  ∧ statusCode (criar_encurtamento (evento_post (pyq "{'url': 123}")) mundo_vazio).1
    = 400%Z.
Proof.
  apply (X3_url_nao_texto (evento_post (pyq "{'url': 123}")) mundo_vazio
           (pyq "{'url': 123}") [(py "url", VInt 123)]).
  - reflexivity.
  - vm_compute. reflexivity.
  - intros u. vm_compute. discriminate.
Defined.

(** *** Effects of a creation *)

Lemma put_item_rastro item w r w' :
  put_item item w = (r, w') →
  chamadas w' = chamadas w ++ [PutItem item] ∧ proximo w' = proximo w.
Proof.
  unfold put_item, bind, chamar.
  destruct (falhas w _); [intros [= <- <-]; split; reflexivity|].
  destruct (item !! py "codigo") as [[| | | |[|c0 k]| |]|];
    try (intros [= <- <-]; split; reflexivity).
  cbn [tabela com_chamadas].
  destruct (tabela w !! (c0 :: k)); intros [= <- <-]; split; reflexivity.
Qed.

Lemma tentativas_rastro excs n u w r w' :
  tentativas excs n u w = (r, w') →
  ∃ l, chamadas w' = chamadas w ++ l ∧ length l ≤ n ∧ Forall e_put l
       ∧ proximo w' = proximo w + TAMANHO_CODIGO * length l.
Proof.
  revert w. induction n as [|n IH]; intros w.
  - intros [= <- <-]. exists []. rewrite app_nil_r. cbn [length].
    split; [reflexivity | split; [lia | split; [constructor | lia]]].
  - cbn [tentativas]. unfold bind at 1. rewrite gerar_codigo_spec.
    set (w0 := com_proximo _ w). set (c0 := codigo_n w 0).
    unfold tente. unfold bind at 1.
    destruct (put_item (item_novo c0 u) w0) as [[[]|e] w1] eqn:Ep;
      apply put_item_rastro in Ep as [Hc Hp].
    + unfold ret. intros [= <- <-].
      exists [PutItem (item_novo c0 u)]. rewrite Hc, Hp. subst w0.
      cbn [chamadas proximo com_proximo length].
      split; [reflexivity|]. split; [lia|].
      split; [constructor; [by eexists | constructor] | unfold TAMANHO_CODIGO; lia].
    + assert (chamadas w1 = chamadas w ++ [PutItem (item_novo c0 u)]
              ∧ proximo w1 = proximo w + TAMANHO_CODIGO) as [Hc' Hp'].
      { rewrite Hc, Hp. subst w0. split; reflexivity. }
      assert (∃ l, chamadas w1 = chamadas w ++ l ∧ length l ≤ S n ∧ Forall e_put l
                   ∧ proximo w1 = proximo w + TAMANHO_CODIGO * length l) as Hstop.
      { exists [PutItem (item_novo c0 u)]. cbn [length].
        split; [exact Hc'|]. split; [lia|].
        split; [constructor; [by eexists | constructor]|].
        rewrite Hp'. unfold TAMANHO_CODIGO. lia. }
      unfold bind at 1, lift.
      destruct (getattr _ _ _) as [cl|a]; [|intros [= <- <-]; exact Hstop].
      destruct (isinstance e cl); [|intros [= <- <-]; exact Hstop].
      destruct e; try (intros [= <- <-]; exact Hstop).
      destruct (str_eqb _ _); [|intros [= <- <-]; exact Hstop].
      intros H. apply IH in H as (l & Hl & Hn & Hput & Hpr).
      exists (PutItem (item_novo c0 u) :: l). cbn [length].
      split; [rewrite Hl, Hc', <- app_assoc; reflexivity|].
      split; [lia|].
      split; [constructor; [by eexists | exact Hput]|].
      rewrite Hpr, Hp'. unfold TAMANHO_CODIGO. lia.
Qed.

(** What a creation does to the table, whatever [boto3.exceptions] is. *)
Lemma criar_tabela excs ev w :
  (∃ c d u,
     json_loads (ou (body ev) (py "{}")) = Ok (VDict d)
     ∧ dict_get d (py "url") = VStr u ∧ url_valida (VStr u) = true
     ∧ (criar_encurtamento_em excs ev w).1 = resposta_criado c
     ∧ length c = TAMANHO_CODIGO ∧ tabela w !! c = None
     ∧ tabela (criar_encurtamento_em excs ev w).2
       = <[c := item_novo c (VStr u)]> (tabela w))
  ∨ (statusCode (criar_encurtamento_em excs ev w).1 ≠ 201%Z
     ∧ tabela (criar_encurtamento_em excs ev w).2 = tabela w).
Proof.
  unfold criar_encurtamento_em, exceto_Exception, bind, lift.
  destruct (json_loads _) as [v|e] eqn:Hj;
    [|right; split; [discriminate | reflexivity]].
  destruct (metodo_get v _) as [x|e] eqn:Hg;
    [|right; split; [discriminate | reflexivity]].
  destruct (url_valida x) eqn:Hv;
    [|rewrite orb_true_r; right; split; [discriminate | reflexivity]].
  rewrite (url_valida_truthy _ Hv). cbn [negb orb].
  destruct (url_valida_VStr _ Hv) as (u & -> & _).
  destruct v as [| | | | | |d]; try discriminate Hg.
  cbn [metodo_get] in Hg. injection Hg as Hg.
  destruct (tentativas excs 5 (VStr u) w) as [r w1] eqn:Et.
  apply tentativas_tabela in Et.
  destruct r as [[c|]|e]; cbn [fst snd ret];
    [|right; split; [discriminate | exact Et]..].
  destruct Et as (Hl & Hn & Ht).
  left. exists c, d, u. repeat split; assumption.
Qed.

(** X4. A creation writes exactly when it answers 201.  With 201 the
    table gains one record, under a six-character code that held none,
    and the record carries the url of the body, which passed
    [url_valida].  With any other status the table is what it was.
    This holds whatever the name [boto3.exceptions.ClientError] denotes. *)
Theorem X4_grava_sse_201 (excs : Modulo) (ev : Evento) (w : Mundo) :
  (statusCode (criar_encurtamento_em excs ev w).1 = 201%Z
   ∧ ∃ c d u,
       json_loads (ou (body ev) (py "{}")) = Ok (VDict d)
       ∧ dict_get d (py "url") = VStr u ∧ url_valida (VStr u) = true
       ∧ (criar_encurtamento_em excs ev w).1 = resposta_criado c
       ∧ length c = TAMANHO_CODIGO ∧ tabela w !! c = None
       ∧ tabela (criar_encurtamento_em excs ev w).2
         = <[c := item_novo c (VStr u)]> (tabela w)
       ∧ size (tabela (criar_encurtamento_em excs ev w).2) = S (size (tabela w)))
  ∨ (statusCode (criar_encurtamento_em excs ev w).1 ≠ 201%Z
     ∧ tabela (criar_encurtamento_em excs ev w).2 = tabela w).
Proof.
  destruct (criar_tabela excs ev w) as [(c & d & u & Hj & Hu & Hv & Hr & Hl & Hn & Ht)|H];
    [left | right; exact H].
  split; [rewrite Hr; reflexivity|].
  exists c, d, u. repeat split; try assumption.
  rewrite Ht. apply map_size_insert_None. exact Hn.
Qed.

(** X5. A creation calls the table at most five times, each call a
    conditional write, and draws six random indices per call; it makes no
    other call.  This holds whatever [boto3.exceptions.ClientError]
    denotes. *)
Theorem X5_no_maximo_cinco (excs : Modulo) (ev : Evento) (w : Mundo) :
  ∃ l, chamadas (criar_encurtamento_em excs ev w).2 = chamadas w ++ l
       ∧ length l ≤ 5 ∧ Forall e_put l
       ∧ proximo (criar_encurtamento_em excs ev w).2
         = proximo w + TAMANHO_CODIGO * length l.
Proof.
  assert (∃ l, chamadas w = chamadas w ++ l ∧ length l ≤ 5 ∧ Forall e_put l
               ∧ proximo w = proximo w + TAMANHO_CODIGO * length l) as Hnada.
  { exists []. rewrite app_nil_r. cbn [length].
    split; [reflexivity | split; [lia | split; [constructor | lia]]]. }
  unfold criar_encurtamento_em, exceto_Exception, bind, lift.
  destruct (json_loads _) as [v|e]; [|exact Hnada].
  destruct (metodo_get v _) as [x|e]; [|exact Hnada].
  destruct (negb (truthy x) || negb (url_valida x)); [exact Hnada|].
  destruct (tentativas excs 5 x w) as [r w1] eqn:Et.
  apply tentativas_rastro in Et.
  destruct r as [[c|]|e]; exact Et.
Qed.

(** X6. As shipped, a creation never makes a second call on the table:
    the first conditional write either succeeds or ends the loop. *)
Theorem X6_uma_so_tentativa (ev : Evento) (w : Mundo) :
  ∃ l, chamadas (criar_encurtamento ev w).2 = chamadas w ++ l ∧ length l ≤ 1.
Proof.
  assert (∃ l, chamadas w = chamadas w ++ l ∧ length l ≤ 1) as Hnada.
  { exists []. rewrite app_nil_r. split; [reflexivity | cbn [length]; lia]. }
  unfold criar_encurtamento, criar_encurtamento_em, exceto_Exception, bind, lift.
  destruct (json_loads _) as [v|e]; [|exact Hnada].
  destruct (metodo_get v _) as [x|e]; [|exact Hnada].
  destruct (negb (truthy x) || negb (url_valida x)); [exact Hnada|].
  rewrite tentativas_real_S. cbn zeta.
  destruct (put_item _ _) as [[[]|e] w1] eqn:Ep;
    apply put_item_rastro in Ep as [Hc _];
    eexists; (split; [exact Hc | cbn [length]; lia]).
Qed.

(** *** Answers of [redirecionar] *)

(** X7. [redirecionar] calls the table only for a non-empty code.  With
    path parameters that lack [codigo] or hold an empty one the answer is
    400; with no path parameters at all reading [codigo] raises and the
    status is 500: the text is that of the [AttributeError] when the key is
    null and that of the [KeyError] when the key is missing.  The world is
    untouched in every case. *)
Theorem X7_sem_codigo (ev : Evento) (w : Mundo) (d : gmap str str) :
  pathParameters ev = Valor d →
  d !! py "codigo" = None ∨ d !! py "codigo" = Some [] →
  redirecionar ev w = (resposta_sem_codigo, w)
  ∧ statusCode resposta_sem_codigo = 400%Z
  ∧ ∀ m p b,
      (redirecionar
         {| httpMethod := m; path := p; pathParameters := Nulo; body := b |} w
       = (resposta_erro 500 (py "'NoneType' object has no attribute 'get'"), w)
       ∧ redirecionar
           {| httpMethod := m; path := p; pathParameters := Ausente; body := b |} w
         = (resposta_erro 500 (py "'pathParameters'"), w))
      ∧ statusCode
          (redirecionar
             {| httpMethod := m; path := p; pathParameters := Nulo; body := b |} w).1
        = 500%Z
      ∧ statusCode
          (redirecionar
             {| httpMethod := m; path := p; pathParameters := Ausente; body := b |} w).1
        = 500%Z.
Proof.
  intros Hd Hc.
  split; [|split; [reflexivity | intros m p b; split; [split|split]; reflexivity]].
  unfold redirecionar, exceto_Exception. rewrite Hd.
  unfold bind at 1, lift at 1, campo_item. cbv beta iota.
  unfold bind at 1, ret at 1.
  destruct Hc as [-> | ->]; reflexivity.
Qed.

Lemma X7_witness :
  redirecionar (evento_get []) mundo_vazio = (resposta_sem_codigo, mundo_vazio)
  ∧ statusCode resposta_sem_codigo = 400%Z
  ∧ ∀ m p b,
      (redirecionar
         {| httpMethod := m; path := p; pathParameters := Nulo; body := b |} mundo_vazio
       = (resposta_erro 500 (py "'NoneType' object has no attribute 'get'"), mundo_vazio)
       ∧ redirecionar
           {| httpMethod := m; path := p; pathParameters := Ausente; body := b |}
           mundo_vazio
         = (resposta_erro 500 (py "'pathParameters'"), mundo_vazio))
      ∧ statusCode
          (redirecionar
             {| httpMethod := m; path := p; pathParameters := Nulo; body := b |}
             mundo_vazio).1
        = 500%Z
      ∧ statusCode
          (redirecionar
             {| httpMethod := m; path := p; pathParameters := Ausente; body := b |}
             mundo_vazio).1
        = 500%Z.
Proof.
  apply (X7_sem_codigo (evento_get []) mundo_vazio {[ py "codigo" := [] ]}).
  - reflexivity.
  - right. vm_compute. reflexivity.
Defined.

(** X8. When the table answers the lookup with an exception, the answer
    is 500 with the text of that exception; the lookup was the only call
    and the table is unchanged. *)
Theorem X8_falha_na_consulta (ev : Evento) (w : Mundo) (d : gmap str str)
    (c : str) (e : Excecao) :
  pathParameters ev = Valor d → d !! py "codigo" = Some c → c ≠ [] →
  falhas w (length (chamadas w)) = Some e →
  redirecionar ev w = (resposta_erro 500 (str_exc e), registrada (GetItem c) w)
  ∧ statusCode (redirecionar ev w).1 = 500%Z
  ∧ tabela (redirecionar ev w).2 = tabela w.
Proof.
  intros Hd Hc Hne Hf.
  assert (redirecionar ev w
          = (resposta_erro 500 (str_exc e), registrada (GetItem c) w)) as ->;
    [|split; [reflexivity | split; reflexivity]].
  unfold redirecionar, exceto_Exception. rewrite Hd.
  unfold bind at 1, lift at 1, campo_item. cbv beta iota.
  unfold bind at 1, ret at 1. rewrite Hc.
  destruct c as [|c0 c]; [congruence|].
  unfold bind, get_item, bind, chamar. rewrite Hf. reflexivity.
Qed.

Lemma X8_witness :
  redirecionar (evento_get (py "abc123")) mundo_fora_do_ar
  = (resposta_erro 500
       (str_exc (BotoCoreError (py "Could not connect to the endpoint URL"))),
     registrada (GetItem (py "abc123")) mundo_fora_do_ar)
  ∧ statusCode (redirecionar (evento_get (py "abc123")) mundo_fora_do_ar).1 = 500%Z
  ∧ tabela (redirecionar (evento_get (py "abc123")) mundo_fora_do_ar).2
    = tabela mundo_fora_do_ar.
Proof.
  apply (X8_falha_na_consulta (evento_get (py "abc123")) mundo_fora_do_ar
           {[ py "codigo" := py "abc123" ]} (py "abc123")
           (BotoCoreError (py "Could not connect to the endpoint URL"))).
  - reflexivity.
  - vm_compute. reflexivity.
  - vm_compute. discriminate.
  - reflexivity.
Defined.

(** The answer of [redirecionar] is a function of the event, the table
    and the fault of the next call. *)
Lemma redirecionar_resposta ev w w' :
  tabela w' = tabela w →
  falhas w' (length (chamadas w')) = falhas w (length (chamadas w)) →
  (redirecionar ev w').1 = (redirecionar ev w).1.
Proof.
  intros Ht Hf. unfold redirecionar, exceto_Exception.
  destruct (pathParameters ev) as [| |d]; [reflexivity | reflexivity |].
  unfold bind, lift, campo_item, ret, raise.
  destruct (d !! py "codigo") as [[|c0 c]|]; [reflexivity| |reflexivity].
  unfold get_item, bind, chamar, raise. rewrite Hf.
  destruct (falhas w _); [reflexivity|].
  cbn [tabela com_chamadas]. rewrite Ht.
  repeat match goal with |- context [if ?b then _ else _] => destruct b end;
    reflexivity.
Qed.

(** X9. Reads are idempotent: [redirecionar] repeated on the world it
    left gives the same answer (status, headers and body) as the first
    time, provided the table answers both lookups alike. *)
Theorem X9_leitura_idempotente (ev : Evento) (w : Mundo) :
  falhas w (length (chamadas (redirecionar ev w).2))
  = falhas w (length (chamadas w)) →
  (redirecionar ev (redirecionar ev w).2).1 = (redirecionar ev w).1
  ∧ tabela (redirecionar ev (redirecionar ev w).2).2 = tabela w.
Proof.
  intros Hf.
  destruct (redirecionar_le ev w) as (Ht & _ & _ & Hfa & _).
  split.
  - apply redirecionar_resposta; [exact Ht|]. rewrite Hfa. exact Hf.
  - destruct (redirecionar_le ev (redirecionar ev w).2) as (Ht' & _).
    rewrite Ht'. exact Ht.
Qed.

Lemma X9_witness :
  (redirecionar (evento_get (py "abc123"))
     (redirecionar (evento_get (py "abc123")) mundo_url_ftp).2).1
  = (redirecionar (evento_get (py "abc123")) mundo_url_ftp).1
  ∧ tabela (redirecionar (evento_get (py "abc123"))
              (redirecionar (evento_get (py "abc123")) mundo_url_ftp).2).2
    = tabela mundo_url_ftp.
Proof.
  apply (X9_leitura_idempotente (evento_get (py "abc123")) mundo_url_ftp).
  reflexivity.
Defined.

(** X10. For a non-empty code and a table that answers, the status of
    [redirecionar] is decided by the stored [url_original]: 301 exactly
    when it passes [url_valida] (the header Location is then that value
    and the body is empty), 404 exactly when it is absent or falsy, 500
    exactly when it is truthy and fails [url_valida]. *)
Theorem X10_respostas_da_consulta (ev : Evento) (w : Mundo) (d : gmap str str) (c : str) :
  pathParameters ev = Valor d → d !! py "codigo" = Some c → c ≠ [] →
  sem_falha w →
  (statusCode (redirecionar ev w).1 = 301%Z ↔ url_valida (url_no_banco w c) = true)
  ∧ (statusCode (redirecionar ev w).1 = 404%Z ↔ truthy (url_no_banco w c) = false)
  ∧ (statusCode (redirecionar ev w).1 = 500%Z
     ↔ truthy (url_no_banco w c) = true ∧ url_valida (url_no_banco w c) = false)
  ∧ (url_valida (url_no_banco w c) = true →
     headers (redirecionar ev w).1 = Some [(py "Location", url_no_banco w c)]
     ∧ rbody (redirecionar ev w).1 = []).
Proof.
  intros Hd Hc Hne Hf.
  rewrite (redirecionar_consulta ev w d c Hd Hc Hne Hf). cbn [fst].
  destruct (truthy (url_no_banco w c)) eqn:Ht;
    destruct (url_valida (url_no_banco w c)) eqn:Hv; cbn [negb].
  - repeat split; try (intros; discriminate); try reflexivity.
    intros [_ H]. discriminate H.
  - repeat split; try (intros; discriminate); try reflexivity.
  - rewrite (url_valida_truthy _ Hv) in Ht. discriminate Ht.
  - repeat split; try (intros; discriminate); try reflexivity.
    intros [H _]. discriminate H.
Qed.

Lemma X10_witness :
  (statusCode (redirecionar (evento_get (py "abc123")) mundo_url_ftp).1 = 301%Z
   ↔ url_valida (url_no_banco mundo_url_ftp (py "abc123")) = true)
  ∧ (statusCode (redirecionar (evento_get (py "abc123")) mundo_url_ftp).1 = 404%Z
     ↔ truthy (url_no_banco mundo_url_ftp (py "abc123")) = false)
  ∧ (statusCode (redirecionar (evento_get (py "abc123")) mundo_url_ftp).1 = 500%Z
     ↔ truthy (url_no_banco mundo_url_ftp (py "abc123")) = true
       ∧ url_valida (url_no_banco mundo_url_ftp (py "abc123")) = false)
  ∧ (url_valida (url_no_banco mundo_url_ftp (py "abc123")) = true →
     headers (redirecionar (evento_get (py "abc123")) mundo_url_ftp).1
     = Some [(py "Location", url_no_banco mundo_url_ftp (py "abc123"))]
     ∧ rbody (redirecionar (evento_get (py "abc123")) mundo_url_ftp).1 = []).
Proof.
  apply (X10_respostas_da_consulta (evento_get (py "abc123")) mundo_url_ftp
           {[ py "codigo" := py "abc123" ]} (py "abc123")).
  - reflexivity.
  - vm_compute. reflexivity.
  - vm_compute. discriminate.
  - reflexivity.
Defined.

(** *** Shape of the answers *)

Lemma json_dumps_nao_vazio d : json_dumps d ≠ [].
Proof. unfold json_dumps. intros H. apply (f_equal (@length N)) in H. discriminate H. Qed.

Lemma prevista_erro (n : Z) (m : str) :
  n = 400%Z ∨ n = 404%Z ∨ n = 500%Z → resposta_prevista (resposta_erro n m).
Proof.
  intros Hn. unfold resposta_prevista, resposta_erro, resposta.
  cbn [statusCode headers rbody].
  split; [destruct Hn as [-> | [-> | ->]]; tauto|].
  split.
  - split; [intros H; destruct (H eq_refl) | intros ->; destruct Hn as [H|[H|H]]; discriminate H].
  - split; [intros H; destruct (json_dumps_nao_vazio _ H)
           | intros ->; destruct Hn as [H|[H|H]]; discriminate H].
Qed.

Lemma prevista_criado c : resposta_prevista (resposta_criado c).
Proof.
  unfold resposta_prevista, resposta_criado, resposta.
  cbn [statusCode headers rbody].
  split; [tauto|]. split.
  - split; [intros H; destruct (H eq_refl) | discriminate].
  - split; [intros H; destruct (json_dumps_nao_vazio _ H) | discriminate].
Qed.

Lemma criar_prevista excs ev w : resposta_prevista (criar_encurtamento_em excs ev w).1.
Proof.
  unfold criar_encurtamento_em, exceto_Exception, bind, lift.
  destruct (json_loads _) as [v|e]; [|apply prevista_erro; tauto].
  destruct (metodo_get v _) as [x|e]; [|apply prevista_erro; tauto].
  destruct (negb (truthy x) || negb (url_valida x)); [apply prevista_erro; tauto|].
  destruct (tentativas excs 5 x w) as [[[c|]|e] w1]; cbn [fst ret];
    [apply prevista_criado | apply prevista_erro; tauto | apply prevista_erro; tauto].
Qed.

Lemma redirecionar_prevista ev w : resposta_prevista (redirecionar ev w).1.
Proof.
  unfold redirecionar, exceto_Exception.
  destruct (pathParameters ev) as [| |d];
    [apply prevista_erro; tauto | apply prevista_erro; tauto |].
  unfold bind, lift, campo_item, ret, raise.
  destruct (d !! py "codigo") as [[|c0 c]|];
    [apply prevista_erro; tauto| |apply prevista_erro; tauto].
  unfold get_item, bind, chamar, raise.
  destruct (falhas w _); [apply prevista_erro; tauto|].
  repeat match goal with |- context [if ?b then _ else _] => destruct b end;
    try (apply prevista_erro; tauto).
  unfold resposta_prevista. cbn [fst statusCode headers rbody].
  split; [tauto|]. split; split; try reflexivity; discriminate.
Qed.

(** X11. Every answer of the handler has status 201, 301, 400, 404 or
    500; it carries headers exactly when the status is 301, and its body
    is empty exactly when the status is 301.  The handler gives an answer
    to every request but a POST whose path is null. *)
Theorem X11_respostas_previstas (excs : Modulo) (ev : Evento) (w : Mundo) :
  match (handler_em excs ev tt w).1 with
  | Ok r => resposta_prevista r
  | Raise _ => caminho_nulo ev
  end
  ∧ match (handler ev tt w).1 with
    | Ok r => resposta_prevista r
    | Raise _ => caminho_nulo ev
    end.
Proof.
  assert (∀ m, match (handler_em m ev tt w).1 with
               | Ok r => resposta_prevista r
               | Raise _ => caminho_nulo ev
               end) as H; [|split; apply H].
  intros m.
  destruct (handler_casos m ev w)
    as [[Hn ->] | [[_ ->] | [(_ & _ & _ & ->) | (_ & _ & _ & ->)]]].
  - exact Hn.
  - apply criar_prevista.
  - apply redirecionar_prevista.
  - apply prevista_erro. tauto.
Qed.

(** *** Integrity of the table *)

Lemma item_novo_integro c u :
  length c = TAMANHO_CODIGO → url_valida (VStr u) = true →
  ∀ t, tabela_integra t → tabela_integra (<[c := item_novo c (VStr u)]> t).
Proof.
  intros Hl Hv t Ht k i. destruct (decide (c = k)) as [->|Hne].
  - rewrite lookup_insert_eq. intros [= <-].
    split; [exact Hl|]. split; [apply item_novo_codigo|].
    exists u. split; [apply item_novo_url | exact Hv].
  - rewrite lookup_insert_ne by exact Hne. apply Ht.
Qed.

(** X12. The handler keeps the table sound: if every record sits under its
    own six-character code and holds a url that passes [url_valida], the
    same is true after any request.  On such a table, a lookup the table
    answers gives 301 for a code that is present and 404 for one that is
    not, never the 500 of the consistency check. *)
Theorem X12_tabela_integra (excs : Modulo) (ev : Evento) (w : Mundo) :
  tabela_integra (tabela w) →
  tabela_integra (tabela (handler_em excs ev tt w).2)
  ∧ ∀ ev' d c, pathParameters ev' = Valor d → d !! py "codigo" = Some c → c ≠ [] →
               sem_falha w →
               (is_Some (tabela w !! c) → statusCode (redirecionar ev' w).1 = 301%Z)
               ∧ (tabela w !! c = None → statusCode (redirecionar ev' w).1 = 404%Z).
Proof.
  intros Hi. split.
  - destruct (handler_casos excs ev w)
      as [[_ ->] | [[_ ->] | [(_ & _ & _ & ->) | (_ & _ & _ & ->)]]];
      unfold retornar; cbn [snd].
    + exact Hi.
    + destruct (criar_tabela excs ev w)
        as [(c & d & u & _ & _ & Hv & _ & Hl & _ & Ht)|[_ Ht]]; rewrite Ht;
        [apply item_novo_integro; assumption | exact Hi].
    + destruct (redirecionar_le ev w) as (Ht & _). rewrite Ht. exact Hi.
    + exact Hi.
  - intros ev' d c Hd Hc Hne Hf.
    rewrite (redirecionar_consulta ev' w d c Hd Hc Hne Hf). cbn [fst].
    unfold url_no_banco. split.
    + intros [i Hs]. rewrite Hs.
      destruct (Hi c i Hs) as (_ & _ & u & Hu & Hv). rewrite Hu.
      change (default VNone (Some (VStr u))) with (VStr u).
      rewrite Hv, (url_valida_truthy _ Hv). reflexivity.
    + intros ->. reflexivity.
Qed.

Lemma X12_witness :
  tabela_integra
    (tabela (handler_em boto3_exceptions (evento_post exemplo_corpo) tt mundo_esgotado).2)
  ∧ ∀ ev' d c, pathParameters ev' = Valor d → d !! py "codigo" = Some c → c ≠ [] →
               sem_falha mundo_esgotado →
               (is_Some (tabela mundo_esgotado !! c)
                → statusCode (redirecionar ev' mundo_esgotado).1 = 301%Z)
               ∧ (tabela mundo_esgotado !! c = None
                  → statusCode (redirecionar ev' mundo_esgotado).1 = 404%Z).
Proof.
  apply (X12_tabela_integra boto3_exceptions (evento_post exemplo_corpo) mundo_esgotado).
  intros k i H.
  change (tabela mundo_esgotado)
    with ({[ py "aaaaaa" := item_novo (py "aaaaaa") (VStr (py "http://old.example/")) ]}
          : gmap str Item) in H.
  apply lookup_singleton_Some in H as [<- <-].
  split; [reflexivity|]. split; [apply item_novo_codigo|].
  exists (py "http://old.example/"). split; [apply item_novo_url|].
  vm_compute. reflexivity.
Defined.

(** X13. Uniqueness: two creations in a row that are both answered 201
    return different codes, and afterwards each code holds the record of
    its own request: the first code the [url] of the first body, the
    second code the [url] of the second body; the table gained exactly two
    records.  This holds whatever [boto3.exceptions.ClientError] denotes. *)
Theorem X13_codigos_distintos (excs : Modulo) (ev1 ev2 : Evento) (w : Mundo) :
  statusCode (criar_encurtamento_em excs ev1 w).1 = 201%Z →
  statusCode (criar_encurtamento_em excs ev2 (criar_encurtamento_em excs ev1 w).2).1
  = 201%Z →
  ∃ c1 c2 d1 d2 u1 u2,
    (json_loads (ou (body ev1) (py "{}")) = Ok (VDict d1)
     ∧ dict_get d1 (py "url") = VStr u1)
    ∧ (json_loads (ou (body ev2) (py "{}")) = Ok (VDict d2)
       ∧ dict_get d2 (py "url") = VStr u2)
    ∧ (criar_encurtamento_em excs ev1 w).1 = resposta_criado c1
    ∧ (criar_encurtamento_em excs ev2 (criar_encurtamento_em excs ev1 w).2).1
      = resposta_criado c2
    ∧ c1 ≠ c2
    ∧ tabela (criar_encurtamento_em excs ev2 (criar_encurtamento_em excs ev1 w).2).2
        !! c1 = Some (item_novo c1 (VStr u1))
    ∧ tabela (criar_encurtamento_em excs ev2 (criar_encurtamento_em excs ev1 w).2).2
        !! c2 = Some (item_novo c2 (VStr u2))
    ∧ size (tabela (criar_encurtamento_em excs ev2 (criar_encurtamento_em excs ev1 w).2).2)
      = S (S (size (tabela w))).
Proof.
  intros H1 H2.
  destruct (criar_tabela excs ev1 w)
    as [(c1 & d1 & u1 & Hj1 & Hu1 & _ & Hr1 & _ & Hn1 & Ht1)|[Hx _]]; [|destruct (Hx H1)].
  set (w1 := (criar_encurtamento_em excs ev1 w).2) in *.
  destruct (criar_tabela excs ev2 w1)
    as [(c2 & d2 & u2 & Hj2 & Hu2 & _ & Hr2 & _ & Hn2 & Ht2)|[Hx _]]; [|destruct (Hx H2)].
  assert (c1 ≠ c2) as Hne.
  { intros ->. rewrite Ht1, lookup_insert_eq in Hn2. discriminate Hn2. }
  exists c1, c2, d1, d2, u1, u2.
  split; [split; [exact Hj1 | exact Hu1]|].
  split; [split; [exact Hj2 | exact Hu2]|].
  split; [exact Hr1|]. split; [exact Hr2|]. split; [exact Hne|].
  rewrite Ht2, Ht1.
  split; [rewrite lookup_insert_ne by congruence; apply lookup_insert_eq|].
  split; [apply lookup_insert_eq|].
  rewrite map_size_insert_None by (rewrite <- Ht1; exact Hn2).
  rewrite map_size_insert_None by exact Hn1. reflexivity.
Qed.

Lemma X13_witness :
  ∃ c1 c2 d1 d2 u1 u2,
    (json_loads (ou (body (evento_post exemplo_corpo)) (py "{}")) = Ok (VDict d1)
     ∧ dict_get d1 (py "url") = VStr u1)
    ∧ (json_loads (ou (body (evento_post exemplo_corpo_2)) (py "{}")) = Ok (VDict d2)
       ∧ dict_get d2 (py "url") = VStr u2)
    ∧ (criar_encurtamento_em boto3_exceptions (evento_post exemplo_corpo)
         mundo_dois_codigos).1 = resposta_criado c1
    ∧ (criar_encurtamento_em boto3_exceptions (evento_post exemplo_corpo_2)
         (criar_encurtamento_em boto3_exceptions (evento_post exemplo_corpo)
            mundo_dois_codigos).2).1
      = resposta_criado c2
    ∧ c1 ≠ c2
    ∧ tabela (criar_encurtamento_em boto3_exceptions (evento_post exemplo_corpo_2)
                (criar_encurtamento_em boto3_exceptions (evento_post exemplo_corpo)
                   mundo_dois_codigos).2).2
        !! c1 = Some (item_novo c1 (VStr u1))
    ∧ tabela (criar_encurtamento_em boto3_exceptions (evento_post exemplo_corpo_2)
                (criar_encurtamento_em boto3_exceptions (evento_post exemplo_corpo)
                   mundo_dois_codigos).2).2
        !! c2 = Some (item_novo c2 (VStr u2))
    ∧ size (tabela (criar_encurtamento_em boto3_exceptions (evento_post exemplo_corpo_2)
                      (criar_encurtamento_em boto3_exceptions (evento_post exemplo_corpo)
                         mundo_dois_codigos).2).2)
      = S (S (size (tabela mundo_dois_codigos))).
Proof.
  apply (X13_codigos_distintos boto3_exceptions (evento_post exemplo_corpo)
           (evento_post exemplo_corpo_2) mundo_dois_codigos).
  - vm_compute. reflexivity.
  - vm_compute. reflexivity.
Defined.

Lemma redirecionar_rastro ev w :
  (redirecionar ev w).2 = w ∨ ∃ c, (redirecionar ev w).2 = registrada (GetItem c) w.
Proof.
  unfold redirecionar, exceto_Exception.
  destruct (pathParameters ev) as [| |d]; [left; reflexivity | left; reflexivity |].
  unfold bind, lift, campo_item, ret, raise.
  destruct (d !! py "codigo") as [[|c0 c]|]; [left; reflexivity| |left; reflexivity].
  right. exists (c0 :: c).
  unfold get_item, bind, chamar, raise.
  destruct (falhas w _); [reflexivity|].
  repeat match goal with |- context [if ?b then _ else _] => destruct b end;
    reflexivity.
Qed.

(** X14. Only a POST can write or draw: for any other method the handler
    leaves the world as it found it, apart from at most one lookup added
    to the trace. *)
Theorem X14_so_post_grava (excs : Modulo) (ev : Evento) (w : Mundo) :
  httpMethod ev ≠ Some (py "POST") →
  (handler_em excs ev tt w).2 = w
  ∨ ∃ c, (handler_em excs ev tt w).2 = registrada (GetItem c) w.
Proof.
  intros Hm. unfold handler_em.
  destruct (bool_decide (httpMethod ev = Some (py "POST"))) eqn:E.
  - apply bool_decide_eq_true in E. destruct (Hm E).
  - cbn [andb]. destruct (_ && _); [apply redirecionar_rastro | left; reflexivity].
Qed.

Lemma X14_witness :
  (handler_em boto3_exceptions (evento_get (py "abc123")) tt mundo_url_ftp).2
  = mundo_url_ftp
  ∨ ∃ c, (handler_em boto3_exceptions (evento_get (py "abc123")) tt mundo_url_ftp).2
         = registrada (GetItem c) mundo_url_ftp.
Proof.
  apply (X14_so_post_grava boto3_exceptions (evento_get (py "abc123")) mundo_url_ftp).
  vm_compute. discriminate.
Defined.

(** X15. As shipped, whatever the first conditional write raises, a
    collision or a failure of the service, is answered 500 with the text
    of the [AttributeError] that the [except] clause raises; that write was
    the only call and the table is unchanged. *)
Theorem X15_excecao_na_gravacao (ev : Evento) (w : Mundo) (b : str)
    (d : list (str * valor)) (u : str) :
  body ev = Some b → json_loads b = Ok (VDict d) → dict_get d (py "url") = VStr u →
  url_valida (VStr u) = true →
  is_Some (falhas w (length (chamadas w))) ∨ is_Some (tabela w !! codigo_n w 0) →
  criar_encurtamento ev w
  = (resposta_erro 500 (py "module 'boto3.exceptions' has no attribute 'ClientError'"),
     registrada (PutItem (item_novo (codigo_n w 0) (VStr u)))
       (com_proximo (proximo w + TAMANHO_CODIGO) w))
  ∧ tabela (criar_encurtamento ev w).2 = tabela w.
Proof.
  intros Hb Hj Hu Hv Hcase.
  assert (json_loads (ou (body ev) (py "{}")) = Ok (VDict d)) as Hj'.
  { rewrite Hb. rewrite (ou_presente b (py "{}") _ Hj). exact Hj. }
  assert (metodo_get (VDict d) (py "url") = Ok (VStr u)) as Hg.
  { cbn [metodo_get]. rewrite Hu. reflexivity. }
  assert (∃ e, put_item (item_novo (codigo_n w 0) (VStr u))
                 (com_proximo (proximo w + TAMANHO_CODIGO) w)
               = (Raise e, registrada (PutItem (item_novo (codigo_n w 0) (VStr u)))
                             (com_proximo (proximo w + TAMANHO_CODIGO) w))) as [e He].
  { destruct (falhas w (length (chamadas w))) as [e|] eqn:Hf.
    - exists e. apply put_item_falha. exact Hf.
    - destruct Hcase as [[e' He']|Hs]; [discriminate He'|].
      exists ConditionalCheckFailed. apply put_item_colisao;
        [exact Hf | apply tamanho_nao_vazio, codigo_em_length | exact Hs]. }
  rewrite (criar_primeira_excecao ev w (VDict d) (VStr u) e _ Hj' Hg Hv He).
  split; reflexivity.
Qed.

Lemma X15_witness :
  criar_encurtamento (evento_post exemplo_corpo) mundo_fora_do_ar
  = (resposta_erro 500 (py "module 'boto3.exceptions' has no attribute 'ClientError'"),
     registrada (PutItem (item_novo (codigo_n mundo_fora_do_ar 0) (VStr exemplo_url)))
       (com_proximo (proximo mundo_fora_do_ar + TAMANHO_CODIGO) mundo_fora_do_ar))
  ∧ tabela (criar_encurtamento (evento_post exemplo_corpo) mundo_fora_do_ar).2
    = tabela mundo_fora_do_ar.
Proof.
  apply (X15_excecao_na_gravacao (evento_post exemplo_corpo) mundo_fora_do_ar
           exemplo_corpo [(py "url", VStr exemplo_url)] exemplo_url).
  - reflexivity.
  - vm_compute. reflexivity.
  - vm_compute. reflexivity.
  - vm_compute. reflexivity.
  - left. eexists. reflexivity.
Defined.

(** *** A branch of [redirecionar] the handler never reaches *)

Lemma por_status (r r' : Resposta) : statusCode r ≠ statusCode r' → r ≠ r'.
Proof. intros H ->. destruct (H eq_refl). Qed.

Lemma criar_nunca_sem_codigo excs ev w :
  (criar_encurtamento_em excs ev w).1 ≠ resposta_sem_codigo.
Proof.
  unfold criar_encurtamento_em, exceto_Exception, bind, lift.
  destruct (json_loads _) as [v|e]; [|apply por_status; discriminate].
  destruct (metodo_get v _) as [x|e]; [|apply por_status; discriminate].
  destruct (negb (truthy x) || negb (url_valida x)).
  - cbn [fst]. intros H. apply (f_equal rbody) in H. vm_compute in H. discriminate H.
  - destruct (tentativas excs 5 x w) as [[[c|]|e] w1]; cbn [fst ret];
      apply por_status; discriminate.
Qed.

Lemma Ok_inj {A} (a b : A) : Ok a = Ok b → a = b.
Proof. intros H. injection H as H. exact H. Qed.

Lemma redirecionar_com_codigo ev w d c :
  pathParameters ev = Valor d → d !! py "codigo" = Some c → c ≠ [] →
  (redirecionar ev w).1 ≠ resposta_sem_codigo.
Proof.
  intros Hd Hc Hne. unfold redirecionar, exceto_Exception. rewrite Hd.
  unfold bind at 1, lift at 1, campo_item. cbv beta iota.
  unfold bind at 1, ret at 1. rewrite Hc.
  destruct c as [|c0 c]; [destruct (Hne eq_refl)|].
  unfold get_item, bind, chamar, raise.
  destruct (falhas w _); [apply por_status; discriminate|].
  repeat match goal with |- context [if ?b then _ else _] => destruct b end;
    apply por_status; discriminate.
Qed.

(** X16. The handler never answers 400 with [Código não informado.]: it
    calls [redirecionar] only with a non-empty [codigo], so the guard at
    the head of [redirecionar] is never taken through the handler. *)
Theorem X16_guarda_inalcancavel (excs : Modulo) (ev : Evento) (w : Mundo) :
  (handler_em excs ev tt w).1 ≠ Ok resposta_sem_codigo
  ∧ (handler ev tt w).1 ≠ Ok resposta_sem_codigo.
Proof.
  assert (∀ m, (handler_em m ev tt w).1 ≠ Ok resposta_sem_codigo) as H;
    [|split; apply H].
  intros m.
  destruct (handler_casos m ev w)
    as [[_ ->] | [[_ ->] | [(_ & _ & Hr & ->) | (_ & _ & _ & ->)]]];
    unfold retornar; cbn [fst].
  - discriminate.
  - intros H. exact (criar_nunca_sem_codigo m ev w (Ok_inj _ _ H)).
  - destruct Hr as [_ (d & c & Hd & Hc & Hne)].
    intros H. exact (redirecionar_com_codigo ev w d c Hd Hc Hne (Ok_inj _ _ H)).
  - intros H. apply Ok_inj in H. apply (f_equal rbody) in H.
    vm_compute in H. discriminate H.
Qed.

(** *** The texts [url_valida] accepts *)

Lemma find_char_Some c s i :
  find_char c s = Some i → s = take i s ++ c :: drop (S i) s.
Proof.
  revert i. induction s as [|x r IH]; intros i; cbn [find_char]; [discriminate|].
  destruct (N.eqb_spec x c) as [->|Hne].
  - intros [= <-]. reflexivity.
  - destruct (find_char c r) as [j|] eqn:E; cbn [fmap option_fmap option_map];
      [|discriminate].
    intros [= <-]. cbn [take drop app]. apply (f_equal (cons x)). apply IH. reflexivity.
Qed.

Lemma splitnetloc_cabeca r d rest :
  splitnetloc r = (d, rest) → d ≠ [] →
  ∃ c r', r = c :: r' ∧ fim_de_netloc c = false.
Proof.
  destruct r as [|c r']; cbn [splitnetloc]; [intros [= <- <-] H; destruct (H eq_refl)|].
  fold (fim_de_netloc c). destruct (fim_de_netloc c) eqn:E.
  - intros [= <- <-] H. destruct (H eq_refl).
  - intros _ _. exists c, r'. split; [reflexivity | exact E].
Qed.

Lemma urlparse_forma s p :
  urlparse s = Some p → scheme p ≠ [] → netloc p ≠ [] →
  ∃ e c r, url_limpa s = e ++ ch ":" :: ch "/" :: ch "/" :: c :: r
           ∧ scheme p = map ascii_lower e ∧ fim_de_netloc c = false.
Proof.
  unfold urlparse. fold (url_limpa s). set (u := url_limpa s).
  destruct (match find_char (ch ":") u with Some _ => _ | None => _ end)
    as [sch rest] eqn:Es.
  intros Hp Hsch Hnl.
  assert (∃ nl, p = {| scheme := sch; netloc := nl |}
                ∧ (nl ≠ [] → ∃ c r, rest = ch "/" :: ch "/" :: c :: r
                                     ∧ fim_de_netloc c = false)) as (nl & -> & Hrest).
  { destruct rest as [|a [|b r]];
      try (injection Hp as <-; eexists; split; [reflexivity|intros H; destruct (H eq_refl)]).
    destruct ((a =? ch "/")%N && (b =? ch "/")%N) eqn:Eab;
      [|injection Hp as <-; eexists; split; [reflexivity|intros H; destruct (H eq_refl)]].
    apply andb_true_iff in Eab as [Ea Eb].
    apply N.eqb_eq in Ea as ->. apply N.eqb_eq in Eb as ->.
    destruct (splitnetloc r) as [nl rest'] eqn:En.
    repeat match type of Hp with (if ?b then _ else _) = _ => destruct b end;
      try discriminate Hp.
    injection Hp as <-. exists nl. split; [reflexivity|]. intros Hne.
    destruct (splitnetloc_cabeca _ _ _ En Hne) as (c & r' & -> & Hc).
    exists c, r'. split; [reflexivity | exact Hc]. }
  cbn [scheme netloc] in Hsch, Hnl.
  destruct (Hrest Hnl) as (c & r & Er & Hc). clear Hrest Hp. rewrite Er in Es. clear Er rest.
  destruct (find_char (ch ":") u) as [[|i]|] eqn:Ef;
    try (injection Es as <- _; destruct (Hsch eq_refl)).
  destruct u as [|c0 u'] eqn:Eu; [injection Es as <- _; destruct (Hsch eq_refl)|].
  destruct ((is_lower c0 || is_upper c0) && forallb scheme_char (take (S i) (c0 :: u')));
    [|injection Es as <- _; destruct (Hsch eq_refl)].
  injection Es as <- Hd.
  exists (take (S i) (c0 :: u')), c, r.
  split; [|split; [reflexivity | exact Hc]].
  pose proof (find_char_Some _ _ _ Ef) as Hf.
  change (drop (S (S i)) (c0 :: u')) with (drop (S i) u') in Hf.
  rewrite Hd in Hf. exact Hf.
Qed.

(** X17. A text that passes [url_valida] reads, once [urlparse] has
    stripped it, [http://] or [https://] in any letter case followed by at
    least one character that is none of [/], [?] and [#]. *)
Theorem X17_forma_da_url_valida (s : str) :
  url_valida (VStr s) = true →
  ∃ e c r, url_limpa s = e ++ ch ":" :: ch "/" :: ch "/" :: c :: r
           ∧ esquema_http e ∧ fim_de_netloc c = false.
Proof.
  cbn [url_valida]. destruct (urlparse s) as [p|] eqn:Ep; [|discriminate].
  intros H. apply andb_true_iff in H as [Hs Hn].
  apply negb_true_iff, str_eqb_neq in Hn.
  assert (scheme p = py "http" ∨ scheme p = py "https") as Hs'.
  { apply orb_true_iff in Hs as [H|H]; apply str_eqb_eq in H; [left|right]; exact H. }
  assert (scheme p ≠ []) as Hne.
  { intros H0. rewrite H0 in Hs'. destruct Hs' as [H|H]; discriminate H. }
  destruct (urlparse_forma s p Ep Hne Hn) as (e & c & r & Hu & He & Hc).
  exists e, c, r. split; [exact Hu|]. split; [|exact Hc].
  unfold esquema_http. rewrite <- He. exact Hs'.
Qed.

Lemma X17_witness :
  ∃ e c r, url_limpa (py " HtTp://exemplo.com/a") = e ++ ch ":" :: ch "/" :: ch "/" :: c :: r
           ∧ esquema_http e ∧ fim_de_netloc c = false.
Proof.
  apply (X17_forma_da_url_valida (py " HtTp://exemplo.com/a")).
  vm_compute. reflexivity.
Defined.

Lemma letra_de_minuscula x :
  is_lower (ascii_lower x) = true → is_lower x || is_upper x = true.
Proof.
  unfold ascii_lower. destruct (is_upper x) eqn:E;
    [intros _; apply orb_true_r | intros ->; reflexivity].
Qed.

Lemma esquema_http_letras e :
  esquema_http e → e ≠ [] ∧ forallb (λ x, is_lower x || is_upper x) e = true.
Proof.
  intros He.
  assert (∃ l, map ascii_lower e = l ∧ l ≠ [] ∧ forallb is_lower l = true)
    as (l & Hl & Hne & Hf).
  { destruct He as [H|H]; eexists;
      (split; [exact H | split; [intros H0; vm_compute in H0; discriminate H0
                                | vm_compute; reflexivity]]). }
  split; [intros ->; apply Hne; symmetry; exact Hl|].
  clear He Hne. revert l Hl Hf. induction e as [|x e IH]; intros l Hl Hf; [reflexivity|].
  cbn [map] in Hl. subst l. cbn [forallb] in Hf |- *.
  apply andb_true_iff in Hf as [H1 H2].
  rewrite (letra_de_minuscula _ H1). cbn [andb]. exact (IH _ eq_refl H2).
Qed.

Lemma letra_visivel x : is_lower x || is_upper x = true → (32 <? x)%N = true.
Proof.
  intros H. apply N.ltb_lt.
  apply orb_true_iff in H as [H|H]; apply andb_true_iff in H as [H _];
    apply N.leb_le in H; lia.
Qed.

Lemma letra_de_esquema x : is_lower x || is_upper x = true → scheme_char x = true.
Proof. unfold scheme_char. intros ->. reflexivity. Qed.

Lemma simples_spec c :
  simples c = true →
  (32 <? c)%N = true ∧ is_ascii c = true ∧ fim_de_netloc c = false
  ∧ (c =? ch "[")%N = false ∧ (c =? ch "]")%N = false.
Proof.
  unfold simples, is_ascii. rewrite !andb_true_iff, !negb_true_iff. tauto.
Qed.

Lemma filtro_visiveis (l : str) :
  forallb (λ c, (32 <? c)%N) l = true →
  filter (fun c => c ≠ 9%N ∧ c ≠ 13%N ∧ c ≠ 10%N) l = l.
Proof.
  induction l as [|c l IH]; [reflexivity|]. cbn [forallb].
  intros H. apply andb_true_iff in H as [Hc Hl]. apply N.ltb_lt in Hc.
  rewrite filter_cons_True by lia. rewrite (IH Hl). reflexivity.
Qed.

Lemma find_char_letras (e r : str) :
  forallb (λ x, is_lower x || is_upper x) e = true →
  find_char (ch ":") (e ++ ch ":" :: r) = Some (length e).
Proof.
  induction e as [|x e IH]; cbn [forallb app find_char length].
  - intros _. rewrite N.eqb_refl. reflexivity.
  - intros H. apply andb_true_iff in H as [Hx He].
    assert ((x =? ch ":")%N = false) as ->.
    { apply N.eqb_neq. intros ->. vm_compute in Hx. discriminate Hx. }
    rewrite (IH He). reflexivity.
Qed.

Lemma splitnetloc_app (h t : str) :
  forallb simples h = true → (∀ c, head t = Some c → fim_de_netloc c = true) →
  splitnetloc (h ++ t) = (h, t).
Proof.
  intros Hh Ht. induction h as [|c h IH]; cbn [app].
  - destruct t as [|c t']; [reflexivity|]. cbn [splitnetloc].
    fold (fim_de_netloc c). rewrite (Ht c eq_refl). reflexivity.
  - cbn [forallb] in Hh. apply andb_true_iff in Hh as [Hc Hh].
    cbn [splitnetloc]. fold (fim_de_netloc c).
    destruct (simples_spec c Hc) as (_ & _ & -> & _). rewrite (IH Hh). reflexivity.
Qed.

Lemma simples_sem_colchete (h : str) :
  forallb simples h = true →
  contem (ch "[") h = false ∧ contem (ch "]") h = false ∧ str_isascii h = true
  ∧ forallb (λ c, (32 <? c)%N) h = true.
Proof.
  unfold contem, str_isascii.
  induction h as [|c h IH]; cbn [forallb existsb]; [tauto|].
  intros H. apply andb_true_iff in H as [Hc Hh].
  destruct (simples_spec c Hc) as (H1 & H2 & _ & H3 & H4).
  destruct (IH Hh) as (I1 & I2 & I3 & I4).
  rewrite (N.eqb_sym _ c), H3, (N.eqb_sym _ c), H4, H1, H2, I1, I2, I3, I4. tauto.
Qed.

Lemma fim_de_netloc_fica c :
  fim_de_netloc c = true → c ≠ 9%N ∧ c ≠ 13%N ∧ c ≠ 10%N.
Proof.
  unfold fim_de_netloc. rewrite !orb_true_iff, !N.eqb_eq.
  intros [[-> | ->] | ->]; vm_compute; repeat split; discriminate.
Qed.

(** What [urlparse] is left with for a text of the simple form. *)
Lemma url_limpa_simples (e h t : str) :
  e ≠ [] → forallb (λ x, is_lower x || is_upper x) e = true →
  forallb simples h = true →
  (∀ c, head t = Some c → fim_de_netloc c = true) →
  ∃ t', url_limpa (e ++ ch ":" :: ch "/" :: ch "/" :: h ++ t)
        = e ++ ch ":" :: ch "/" :: ch "/" :: h ++ t'
        ∧ ∀ c, head t' = Some c → fim_de_netloc c = true.
Proof.
  intros Hne He Hh Ht. unfold url_limpa.
  exists (filter (fun c => c ≠ 9%N ∧ c ≠ 13%N ∧ c ≠ 10%N) t). split.
  - destruct e as [|x e']; [destruct (Hne eq_refl)|].
    cbn [forallb] in He. apply andb_true_iff in He as [Hx He].
    pose proof (letra_visivel x Hx) as Hv. cbn [app lstrip].
    assert ((x <=? 32)%N = false) as ->.
    { apply N.leb_gt. apply N.ltb_lt in Hv. exact Hv. }
    change (x :: e' ++ ch ":" :: ch "/" :: ch "/" :: h ++ t)
      with ((x :: e') ++ [ch ":"; ch "/"; ch "/"] ++ h ++ t).
    rewrite !list.filter_app.
    rewrite (filtro_visiveis (x :: e')).
    + rewrite (filtro_visiveis h); [|apply (simples_sem_colchete h Hh)].
      rewrite (filtro_visiveis [ch ":"; ch "/"; ch "/"]) by reflexivity.
      reflexivity.
    + cbn [forallb]. rewrite Hv. cbn [andb].
      clear -He. induction e' as [|y e IH]; [reflexivity|].
      cbn [forallb] in He |- *. apply andb_true_iff in He as [Hy He].
      rewrite (letra_visivel y Hy), (IH He). reflexivity.
  - destruct t as [|c t0]; [intros c H; discriminate H|].
    pose proof (Ht c eq_refl) as Hc.
    rewrite filter_cons_True by (apply fim_de_netloc_fica; exact Hc).
    intros c' [= <-]. exact Hc.
Qed.

(** X18. Every text made of [http] or [https] in any letter case, [://],
    a non-empty run of printable ASCII characters other than the space,
    [/], [?], [#] and the square brackets, and then nothing or a tail
    that starts with [/], [?] or [#], passes [url_valida]. *)
Theorem X18_url_valida_basta (e h t : str) :
  esquema_http e → h ≠ [] → forallb simples h = true →
  (∀ c, head t = Some c → fim_de_netloc c = true) →
  url_valida (VStr (e ++ ch ":" :: ch "/" :: ch "/" :: h ++ t)) = true.
Proof.
  intros He Hh Hs Ht.
  destruct (esquema_http_letras e He) as [Hne Hl].
  destruct (url_limpa_simples e h t Hne Hl Hs Ht) as (t' & Hu & Ht').
  destruct (simples_sem_colchete h Hs) as (Ha & Hf & Hascii & _).
  assert (urlparse (e ++ ch ":" :: ch "/" :: ch "/" :: h ++ t)
          = Some {| scheme := map ascii_lower e; netloc := h |}) as Hp.
  { unfold urlparse.
    fold (url_limpa (e ++ ch ":" :: ch "/" :: ch "/" :: h ++ t)). rewrite Hu.
    rewrite (find_char_letras e _ Hl).
    destruct e as [|x e']; [destruct (Hne eq_refl)|].
    cbn [length app].
    change (x :: e' ++ ch ":" :: ch "/" :: ch "/" :: h ++ t')
      with ((x :: e') ++ ch ":" :: ch "/" :: ch "/" :: h ++ t').
    rewrite (take_app_length' (x :: e')) by reflexivity.
    assert (drop (S (S (length e'))) ((x :: e') ++ ch ":" :: ch "/" :: ch "/" :: h ++ t')
            = ch "/" :: ch "/" :: h ++ t') as ->.
    { change ((x :: e') ++ ch ":" :: ch "/" :: ch "/" :: h ++ t')
        with ((x :: e') ++ [ch ":"] ++ ch "/" :: ch "/" :: h ++ t').
      rewrite app_assoc. apply drop_app_length'.
      rewrite length_app. cbn [length]. lia. }
    assert (forallb scheme_char (x :: e') = true) as ->.
    { clear -Hl. induction (x :: e') as [|y l IH]; [reflexivity|].
      cbn [forallb] in Hl |- *. apply andb_true_iff in Hl as [Hy Hl].
      rewrite (letra_de_esquema y Hy), (IH Hl). reflexivity. }
    cbn [forallb] in Hl. apply andb_true_iff in Hl as [Hx _]. rewrite Hx.
    cbn [andb]. rewrite N.eqb_refl. cbn [andb].
    rewrite (splitnetloc_app h t' Hs Ht'), Ha, Hf. cbn [andb orb negb].
    unfold checknetloc. rewrite Hascii, orb_true_r. reflexivity. }
  cbn [url_valida]. rewrite Hp. cbn [scheme netloc].
  assert (str_eqb h [] = false) as -> by (apply str_eqb_neq; exact Hh).
  assert (str_eqb (map ascii_lower e) (py "http")
          || str_eqb (map ascii_lower e) (py "https") = true) as ->.
  { apply orb_true_iff. destruct He as [H|H]; [left|right]; apply str_eqb_eq; exact H. }
  reflexivity.
Qed.

Lemma X18_witness :
  url_valida (VStr (py "hTTps" ++ ch ":" :: ch "/" :: ch "/"
                    :: py "exemplo.com:8080" ++ py "/a b?x#y")) = true.
Proof.
  apply (X18_url_valida_basta (py "hTTps") (py "exemplo.com:8080") (py "/a b?x#y")).
  - right. vm_compute. reflexivity.
  - intros H. vm_compute in H. discriminate H.
  - vm_compute. reflexivity.
  - intros c H. vm_compute in H. injection H as <-. vm_compute. reflexivity.
Defined.

(** *** What leaves the handler as an exception *)

(** X19. A POST whose path is null is not answered: [caminho.endswith]
    raises [AttributeError] outside any [try], and the exception leaves
    the handler.  Nothing is drawn and the table is not called. *)
Theorem X19_caminho_nulo (excs : Modulo) (ev : Evento) (w : Mundo) :
  httpMethod ev = Some (py "POST") → path ev = Nulo →
  handler_em excs ev tt w
  = (Raise (AttributeError (py "'NoneType' object has no attribute 'endswith'")), w)
  ∧ handler ev tt w
    = (Raise (AttributeError (py "'NoneType' object has no attribute 'endswith'")), w).
Proof.
  intros Hm Hp.
  assert (∀ m, handler_em m ev tt w
               = (Raise (AttributeError
                           (py "'NoneType' object has no attribute 'endswith'")), w))
    as H; [|split; apply H].
  intros m. rewrite (handler_em_eq m ev w), Hp.
  assert (bool_decide (httpMethod ev = Some (py "POST")) = true) as ->
    by (apply bool_decide_eq_true; exact Hm).
  reflexivity.
Qed.

Lemma X19_witness :
  handler_em boto3_exceptions evento_post_sem_caminho tt mundo_vazio
  = (Raise (AttributeError (py "'NoneType' object has no attribute 'endswith'")),
     mundo_vazio)
  ∧ handler evento_post_sem_caminho tt mundo_vazio
    = (Raise (AttributeError (py "'NoneType' object has no attribute 'endswith'")),
       mundo_vazio).
Proof.
  apply (X19_caminho_nulo boto3_exceptions evento_post_sem_caminho mundo_vazio).
  - reflexivity.
  - reflexivity.
Defined.

(** *** Bodies nested deeper than the interpreter allows *)

Lemma skip_ws_colchete (n : nat) (t : str) (pos : nat) :
  skip_ws (repeat (ch "[") (S n) ++ t) pos = (repeat (ch "[") (S n) ++ t, pos).
Proof. reflexivity. Qed.

Lemma scan_once_profundo (niveis : nat) :
  ∀ fuel n t pos, niveis < n → 2 * niveis + 1 ≤ fuel →
    scan_once fuel niveis (repeat (ch "[") n ++ t) pos
    = SExc (RecursionError msg_recursion_array).
Proof.
  induction niveis as [|k IH]; intros fuel n t pos Hn Hf.
  - destruct fuel as [|f]; [lia|]. destruct n as [|n]; [lia|]. reflexivity.
  - destruct fuel as [|[|f]]; [lia | lia |].
    destruct n as [|[|n]]; [lia | lia |].
    change (repeat (ch "[") (S (S n)) ++ t)
      with (ch "[" :: (repeat (ch "[") (S n) ++ t)).
    cbn [scan_once]. change (ch "[" =? aspas)%N with false.
    change (ch "[" =? ch "{")%N with false. change (ch "[" =? ch "[")%N with true.
    cbv iota. rewrite skip_ws_colchete.
    change (repeat (ch "[") (S n) ++ t) with (ch "[" :: (repeat (ch "[") n ++ t)).
    cbv beta iota zeta. change (ch "[" =? ch "]")%N with false. cbv iota.
    change (ch "[" :: (repeat (ch "[") n ++ t)) with (repeat (ch "[") (S n) ++ t).
    cbn [parse_array]. rewrite IH by lia. reflexivity.
Qed.

Lemma json_loads_profundo (n : nat) (t : str) :
  NIVEIS_JSON < n →
  json_loads (repeat (ch "[") n ++ t) = Raise (RecursionError msg_recursion_array).
Proof.
  intros Hn. destruct n as [|n]; [lia|]. unfold json_loads.
  change (startswith (repeat (ch "[") (S n) ++ t) [65279%N]) with false. cbv iota.
  rewrite skip_ws_colchete. cbv beta iota zeta.
  rewrite scan_once_profundo; [reflexivity | exact Hn |].
  rewrite length_app, repeat_length. lia.
Qed.


